(** * Request dispatch and error handling of [flask.app.Flask]

    A shallow embedding of the request-lifecycle methods of
    [src/flask/app.py]: error-handler lookup, exception handling,
    response normalisation, the after-request and teardown hook chains,
    the before-first-request trigger and [wsgi_app].

    Python objects that the methods mutate ([error_handler_spec],
    [_got_first_request]) live in an explicit [world] that every method
    threads; raising is an [outcome]; calls of user functions, signals
    and log records are appended to a chronological [w_trace]. *)

From Stdlib Require Import ZArith List String Ascii Lia.
From stdpp Require Import gmap strings list pretty.

Set Warnings "-register-all".
Open Scope string_scope.
Open Scope Z_scope.

(** ** Python values *)

(** A class as the dispatcher sees it: its name, the names of its
    ancestors in method-resolution order and its [code] class attribute. *)
Record pyclass := PyClass {
  cls_name : string;
  cls_ancestors : list string;
  cls_code : option Z
}.

(** [cls.__mro__]: the class itself, then its ancestors, nearest first. *)
Definition __mro__ (c : pyclass) : list string := cls_name c :: cls_ancestors c.

(** An exception instance.  [original_exception] is the attribute that
    [handle_exception] sets on the synthesised [InternalServerError]. *)
Inductive exc := Exc {
  exc_type : pyclass;
  exc_message : string;
  original_exception : option exc
}.

Inductive outcome (A : Type) :=
| Return (a : A)
| Raise (e : exc).
Arguments Return {A} a.
Arguments Raise {A} e.

Definition issubclass (c : pyclass) (base : string) : bool :=
  bool_decide (base ∈ __mro__ c).

Definition isinstance (e : exc) (base : string) : bool :=
  issubclass (exc_type e) base.

Module Builtins.
Definition base_mro : list string := ["Exception"; "BaseException"; "object"].

Definition TypeError_class : pyclass :=
  PyClass "TypeError" base_mro None.

Definition HTTPException_class : pyclass :=
  PyClass "HTTPException" base_mro None.

Definition InternalServerError_class : pyclass :=
  PyClass "InternalServerError"
          ("HTTPException" :: base_mro) (Some 500).

Definition TypeError (msg : string) : exc := Exc TypeError_class msg None.

(** [InternalServerError()] *)
Definition InternalServerError : exc :=
  Exc InternalServerError_class "Internal Server Error" None.
End Builtins.

(** What a response was last told its status is: [rv.status_code = n]
    or [rv.status = s]. *)
Inductive status_val :=
| StatusCode (n : Z)
| StatusLine (s : string).

Record Response := mkResponse {
  body : string;
  status : status_val;
  headers : list (string * string)
}.

(** A return value of a view function, hook or error handler. *)
Inductive pyval :=
| PyNone
| PyStr (s : string)
| PyBytes (s : string)
| PyInt (n : Z)
| PyDict (items : list (string * pyval))
| PyList (xs : list pyval)
| PyTuple (xs : list pyval)
| PyHeaders (h : list (string * string))
| PyResponse (r : Response)          (* instance of [self.response_class] *)
| PyBaseResponse (r : Response)      (* another [BaseResponse] class *)
| PyExc (e : exc)                    (* an exception instance as a value *)
| PyCallable (run : outcome Response) (* a WSGI callable and what running it gives *)
| PyObject (type_name : string).     (* any other object *)

(** A user function with the name under which its calls are recorded. *)
Record callable (A B : Type) := Callable {
  fn_name : string;
  fn_call : A -> outcome B
}.
Arguments Callable {A B} fn_name fn_call.
Arguments fn_name {A B} c.
Arguments fn_call {A B} c a.

Inductive call_arg :=
| ArgNone
| ArgExc (e : option exc)
| ArgResponse (r : Response).

Inductive event :=
| EvCall (name : string) (arg : call_arg)        (* a user function was called *)
| EvSignal (name : string) (arg : call_arg)      (* [signal.send(self, ...)] *)
| EvLog (msg : string) (e : option exc)          (* a record on [self.logger] *)
| EvLock (acquired : bool)                       (* [_before_request_lock] *)
| EvSaveSession (r : Response)
| EvPush
| EvPop
| EvPreserved (e : option exc)
| EvStartResponse (r : Response).

(** ** The application, the request context and the world *)

Definition error_handler := callable exc pyval.

Record Flask := mkFlask {
  error_handler_spec :
    gmap (option string) (gmap (option Z) (gmap string error_handler));
  before_first_request_funcs : list (callable unit unit);
  _got_first_request : bool;
  url_value_preprocessors : gmap (option string) (list (callable unit unit));
  before_request_funcs : gmap (option string) (list (callable unit pyval));
  after_request_funcs : gmap (option string) (list (callable Response Response));
  teardown_request_funcs : gmap (option string) (list (callable (option exc) unit));
  PROPAGATE_EXCEPTIONS : option bool;
  TRAP_HTTP_EXCEPTIONS : bool;
  TRAP_BAD_REQUEST_ERRORS : option bool;
  testing : bool;
  debug : bool
}.

Record RequestContext := mkRequestContext {
  blueprint : option string;
  endpoint : string;
  method : string;
  allowed_methods : list string;        (* url_adapter.allowed_methods() *)
  routing_exception : option exc;
  provide_automatic_options : bool;     (* getattr(rule, "provide_automatic_options", False) *)
  view_function : callable unit pyval;  (* view_functions[rule.endpoint] *)
  _after_request_functions : list (callable Response Response);
  null_session : bool;                  (* session_interface.is_null_session *)
  preserve_context : bool               (* environ["flask._preserve_context"] *)
}.

Record world := mkWorld {
  w_app : Flask;
  w_ctx : RequestContext;
  w_trace : list event
}.

(** ** The monad of a method body: state and exceptions *)

Definition M (A : Type) : Type := world -> outcome A * world.

Definition ret {A} (a : A) : M A := fun w => (Return a, w).

Definition bind {A B} (m : M A) (k : A -> M B) : M B :=
  fun w => match m w with
           | (Return a, w') => k a w'
           | (Raise e, w') => (Raise e, w')
           end.

Definition raise {A} (e : exc) : M A := fun w => (Raise e, w).

Declare Scope py_scope.
Delimit Scope py_scope with py.
Notation "x <- c ;; k" := (bind c (fun x => k))
  (at level 100, c at next level, right associativity) : py_scope.
Notation "c ;;; k" := (bind c (fun _ => k))
  (at level 100, right associativity) : py_scope.
Open Scope py_scope.

(** [try: body except <classes matched by catches>: handler] *)
Definition try_except {A} (body : M A) (catches : exc -> bool)
           (handler : exc -> M A) : M A :=
  fun w => match body w with
           | (Return a, w') => (Return a, w')
           | (Raise e, w') => if catches e then handler e w' else (Raise e, w')
           end.

(** [try: body finally: fin]; an exception of [fin] replaces the
    outcome of [body]. *)
Definition try_finally {A} (body : M A) (fin : outcome A -> M unit) : M A :=
  fun w => match body w with
           | (o, w') => match fin o w' with
                        | (Return _, w'') => (o, w'')
                        | (Raise e, w'') => (Raise e, w'')
                        end
           end.

Definition emit (ev : event) : M unit :=
  fun w => (Return tt, mkWorld (w_app w) (w_ctx w) (w_trace w ++ [ev])).

Definition get_app : M Flask := fun w => (Return (w_app w), w).
Definition get_ctx : M RequestContext := fun w => (Return (w_ctx w), w).
Definition put_app (a : Flask) : M unit :=
  fun w => (Return tt, mkWorld a (w_ctx w) (w_trace w)).

Definition lift {A} (o : outcome A) : M A := fun w => (o, w).

(** Calling a user function: the call is recorded, then it returns or
    raises. *)
Definition invoke {A B} (f : callable A B) (describe : A -> call_arg) (a : A) : M B :=
  emit (EvCall (fn_name f) (describe a)) ;;; lift (fn_call f a).

(** [for x in xs: body(x)] *)
Fixpoint for_each {A} (xs : list A) (body : A -> M unit) : M unit :=
  match xs with
  | [] => ret tt
  | x :: rest => body x ;;; for_each rest body
  end.

(** ** Error-handler lookup *)

Definition with_error_handler_spec (a : Flask)
    (spec : gmap (option string) (gmap (option Z) (gmap string error_handler))) : Flask :=
  mkFlask spec (before_first_request_funcs a) (_got_first_request a)
          (url_value_preprocessors a) (before_request_funcs a)
          (after_request_funcs a) (teardown_request_funcs a)
          (PROPAGATE_EXCEPTIONS a) (TRAP_HTTP_EXCEPTIONS a)
          (TRAP_BAD_REQUEST_ERRORS a) (testing a) (debug a).

(** Modelled from the spec: [Scaffold._get_exc_class_and_code] is defined
    in [scaffold.py]; per the spec the code is "the exception's concrete
    status code (if the exception carries one)", which only HTTP-level
    exception classes do. *)
Definition _get_exc_class_and_code (exc_class : pyclass) : pyclass * option Z :=
  if issubclass exc_class "HTTPException"
  then (exc_class, cls_code exc_class)
  else (exc_class, None).

(** [self.error_handler_spec.setdefault(name, {})] *)
Definition setdefault_spec (name : option string)
  : M (gmap (option Z) (gmap string error_handler)) :=
  a <- get_app ;;
  match error_handler_spec a !! name with
  | Some d => ret d
  | None =>
      put_app (with_error_handler_spec a (<[name := ∅]> (error_handler_spec a))) ;;;
      ret ∅
  end.

(** [for cls in exc_class.__mro__: handler = handler_map.get(cls) ...] *)
Fixpoint mro_walk (handler_map : gmap string error_handler) (mro : list string)
  : option error_handler :=
  match mro with
  | [] => None
  | cls :: rest =>
      match handler_map !! cls with
      | Some handler => Some handler
      | None => mro_walk handler_map rest
      end
  end.

(** The outer [for name, c in (...)] loop of [_find_error_handler]. *)
Fixpoint find_in (keys : list (option string * option Z)) (mro : list string)
  : M (option error_handler) :=
  match keys with
  | [] => ret None
  | (name, c) :: rest =>
      d <- setdefault_spec name ;;
      match d !! c with
      | None => find_in rest mro
      | Some handler_map =>
          if Nat.eqb (size handler_map) 0 then find_in rest mro
          else match mro_walk handler_map mro with
               | Some handler => ret (Some handler)
               | None => find_in rest mro
               end
      end
  end.

Definition _find_error_handler (e : exc) : M (option error_handler) :=
  let '(exc_class, code) := _get_exc_class_and_code (exc_type e) in
  c <- get_ctx ;;
  find_in [(blueprint c, code); (None, code); (blueprint c, None); (None, None)]
          (__mro__ exc_class).

Definition handle_http_exception (e : exc) : M pyval :=
  if bool_decide (cls_code (exc_type e) = None) then ret (PyExc e)
  else if isinstance e "RoutingException" then ret (PyExc e)
  else
    handler <- _find_error_handler e ;;
    match handler with
    | None => ret (PyExc e)
    | Some h => invoke h (fun x => ArgExc (Some x)) e
    end.

Definition trap_http_exception (a : Flask) (e : exc) : bool :=
  if TRAP_HTTP_EXCEPTIONS a then true
  else
    let trap_bad_request := TRAP_BAD_REQUEST_ERRORS a in
    if bool_decide (trap_bad_request = None) && debug a
       && isinstance e "BadRequestKeyError"
    then true
    else if bool_decide (trap_bad_request = Some true)
    then isinstance e "BadRequest"
    else false.

(** The presentation attributes that the first block of the method sets
    on a [BadRequestKeyError] ([show_exception], [description]) are not
    part of [exc]; the dispatch below does not read them. *)
Definition handle_user_exception (e : exc) : M pyval :=
  a <- get_app ;;
  if isinstance e "HTTPException" && negb (trap_http_exception a e)
  then handle_http_exception e
  else
    handler <- _find_error_handler e ;;
    match handler with
    | None => raise e
    | Some h => invoke h (fun x => ArgExc (Some x)) e
    end.

(** ** The response class (werkzeug) at the interface [make_response] uses *)

Definition obind {A B} (o : outcome A) (k : A -> outcome B) : outcome B :=
  match o with
  | Return a => k a
  | Raise e => Raise e
  end.

Module Werkzeug.
Definition digit_of (c : ascii) : option Z :=
  let n := Z.of_N (N_of_ascii c) in
  if (48 <=? n) && (n <=? 57) then Some (n - 48) else None.

Fixpoint first_token (s : string) : string :=
  match s with
  | EmptyString => EmptyString
  | String c rest => if Ascii.eqb c " " then EmptyString else String c (first_token rest)
  end.

Fixpoint parse_digits (s : string) (acc : Z) : option Z :=
  match s with
  | EmptyString => Some acc
  | String c rest =>
      match digit_of c with
      | Some d => parse_digits rest (10 * acc + d)
      | None => None
      end
  end.

(** [int(status.split(None, 1)[0])], 0 when that is not a number. *)
Definition code_of_line (s : string) : Z :=
  match first_token s with
  | EmptyString => 0
  | tok => default 0 (parse_digits tok 0)
  end.

(** [response.status_code] *)
Definition status_code (r : Response) : Z :=
  match status r with
  | StatusCode n => n
  | StatusLine s => code_of_line s
  end.

Definition has_header (k : string) (hs : list (string * string)) : bool :=
  existsb (fun kv => String.eqb (fst kv) k) hs.

(** [Headers.set]: the first entry of the key is replaced, later ones
    are dropped, a new key is appended. *)
Fixpoint headers_set (k v : string) (hs : list (string * string))
  : list (string * string) :=
  match hs with
  | [] => [(k, v)]
  | (k', v') :: rest =>
      if String.eqb k' k
      then (k, v) :: List.filter (fun kv => negb (String.eqb (fst kv) k)) rest
      else (k', v') :: headers_set k v rest
  end.

(** [Headers.update] *)
Definition headers_update (new old : list (string * string)) : list (string * string) :=
  fold_left (fun hs kv => headers_set (fst kv) (snd kv) hs) new old.

Definition header_value (v : pyval) : outcome string :=
  match v with
  | PyStr s | PyBytes s => Return s
  | PyInt n => Return (pretty n)
  | _ => Raise (Builtins.TypeError "header value")
  end.

Fixpoint dict_items (items : list (string * pyval)) : outcome (list (string * string)) :=
  match items with
  | [] => Return []
  | (k, v) :: rest =>
      obind (header_value v) (fun s =>
      obind (dict_items rest) (fun tl => Return ((k, s) :: tl)))
  end.

Fixpoint pair_items (xs : list pyval) : outcome (list (string * string)) :=
  match xs with
  | [] => Return []
  | PyTuple [PyStr k; v] :: rest | PyList [PyStr k; v] :: rest =>
      obind (header_value v) (fun s =>
      obind (pair_items rest) (fun tl => Return ((k, s) :: tl)))
  | _ => Raise (Builtins.TypeError "header item")
  end.

(** The (key, value) pairs that a [headers] argument stands for. *)
Definition header_items (h : pyval) : outcome (list (string * string)) :=
  match h with
  | PyNone => Return []
  | PyHeaders hs => Return hs
  | PyDict items => dict_items items
  | PyList xs | PyTuple xs => pair_items xs
  | _ => Raise (Builtins.TypeError "headers")
  end.

Definition default_content_type : string * string :=
  ("Content-Type", "text/html; charset=utf-8").

(** [Response(body, status=status, headers=headers)] *)
Definition response_class (b : string) (st h : pyval) : outcome Response :=
  obind (header_items h) (fun hs =>
  let hs := if has_header "Content-Type" hs then hs else (hs ++ [default_content_type])%list in
  match st with
  | PyNone => Return (mkResponse b (StatusCode 200) hs)
  | PyInt n => Return (mkResponse b (StatusCode n) hs)
  | PyStr s | PyBytes s => Return (mkResponse b (StatusLine s) hs)
  | _ => Raise (Builtins.TypeError "Invalid status argument")
  end).

(** An [HTTPException] run as a WSGI application. *)
Definition http_exception_response (e : exc) : Response :=
  mkResponse (exc_message e)
             (StatusCode (default 200 (cls_code (exc_type e))))
             [default_content_type].

(** [isinstance(rv, BaseResponse)] *)
Definition is_base_response (rv : pyval) : bool :=
  match rv with
  | PyResponse _ | PyBaseResponse _ => true
  | _ => false
  end.

(** [callable(rv)]; an [HTTPException] instance is a WSGI application. *)
Definition callable (rv : pyval) : bool :=
  match rv with
  | PyCallable _ | PyResponse _ | PyBaseResponse _ => true
  | PyExc e => isinstance e "HTTPException"
  | _ => false
  end.

(** [response_class.force_type(rv, environ)] for a [BaseResponse] or a
    callable. *)
Definition force_type (rv : pyval) : outcome Response :=
  match rv with
  | PyResponse r | PyBaseResponse r => Return r
  | PyCallable run => run
  | PyExc e => Return (http_exception_response e)
  | _ => Raise (Builtins.TypeError "not a WSGI application")
  end.

(** [rv.status = s] *)
Definition set_status (s : string) (r : Response) : Response :=
  mkResponse (body r) (StatusLine s) (headers r).

(** [rv.status_code = n] *)
Definition set_status_code (n : pyval) (r : Response) : outcome Response :=
  match n with
  | PyInt n => Return (mkResponse (body r) (StatusCode n) (headers r))
  | _ => Raise (Builtins.TypeError "status code must be an integer")
  end.
End Werkzeug.

(** [type(rv).__name__] *)
Definition type_name_of (rv : pyval) : string :=
  match rv with
  | PyNone => "NoneType"
  | PyStr _ => "str"
  | PyBytes _ => "bytes"
  | PyInt _ => "int"
  | PyDict _ => "dict"
  | PyList _ => "list"
  | PyTuple _ => "tuple"
  | PyHeaders _ => "Headers"
  | PyResponse _ => "Response"
  | PyBaseResponse _ => "BaseResponse"
  | PyExc e => cls_name (exc_type e)
  | PyCallable _ => "function"
  | PyObject n => n
  end.

(** Python truth value of a [headers] argument ([if headers:]). *)
Definition truthy (v : pyval) : bool :=
  match v with
  | PyNone => false
  | PyStr s | PyBytes s => negb (String.eqb s "")
  | PyInt n => negb (n =? 0)
  | PyDict [] | PyList [] | PyTuple [] | PyHeaders [] => false
  | _ => true
  end.

(** ** Response normalisation *)

Module Json.
Definition dquote : string := String (ascii_of_nat 34) EmptyString.

Definition join (sep : string) (parts : list string) : string :=
  match parts with
  | [] => ""
  | p :: rest => fold_left (fun acc x => acc ++ sep ++ x) rest p
  end.

Fixpoint dumps (v : pyval) : outcome string :=
  match v with
  | PyNone => Return "null"
  | PyStr s => Return (dquote ++ s ++ dquote)
  | PyInt n => Return (pretty n)
  | PyList xs | PyTuple xs =>
      obind ((fix elems (l : list pyval) : outcome (list string) :=
                match l with
                | [] => Return []
                | x :: r => obind (dumps x) (fun s =>
                            obind (elems r) (fun tl => Return (s :: tl)))
                end) xs)
            (fun parts => Return ("[" ++ join ", " parts ++ "]"))
  | PyDict items =>
      obind ((fix members (l : list (string * pyval)) : outcome (list string) :=
                match l with
                | [] => Return []
                | (k, x) :: r => obind (dumps x) (fun s =>
                                 obind (members r) (fun tl =>
                                 Return ((dquote ++ k ++ dquote ++ ": " ++ s) :: tl)))
                end) items)
            (fun parts => Return ("{" ++ join ", " parts ++ "}"))
  | _ => Raise (Builtins.TypeError "Object is not JSON serializable")
  end.

(** Modelled from the spec: [jsonify] is defined in [flask/json]; a
    structured mapping is "serialized to a JSON body with content type
    application/json, default status 200". *)
Definition jsonify (rv : pyval) : outcome Response :=
  obind (dumps rv) (fun s =>
  Return (mkResponse s (StatusCode 200) [("Content-Type", "application/json")])).
End Json.

Definition newline : string := String (ascii_of_nat 10) EmptyString.

Definition invalid_tuple_message : string :=
  "The view function did not return a valid response tuple. The tuple must have the form (body, status, headers), (body, status), or (body, headers).".

Definition none_message (endpoint : string) : string :=
  "The view function for '" ++ endpoint ++ "' did not return a valid response. The function either returned None or ended without a return statement.".

Definition invalid_type_message (rv : pyval) : string :=
  "The view function did not return a valid response. The return type must be a string, dict, tuple, Response instance, or WSGI callable, but it was a "
  ++ type_name_of rv ++ ".".

(** [isinstance(rv[1], (Headers, dict, tuple, list))] *)
Definition is_headers_shape (v : pyval) : bool :=
  match v with
  | PyHeaders _ | PyDict _ | PyTuple _ | PyList _ => true
  | _ => false
  end.

(** The "unpack tuple returns" block: the body, the status and the
    headers that a return value stands for ([PyNone] is Python's [None]). *)
Definition unpack_tuple (rv : pyval) : outcome (pyval * pyval * pyval) :=
  match rv with
  | PyTuple xs =>
      match xs with
      | [rv'; status'; headers'] => Return (rv', status', headers')
      | [rv'; second] =>
          if is_headers_shape second
          then Return (rv', PyNone, second)
          else Return (rv', second, PyNone)
      | _ => Raise (Builtins.TypeError invalid_tuple_message)
      end
  | _ => Return (rv, PyNone, PyNone)
  end.

(** "make sure the body is an instance of the response class": the
    response object, and the status and headers still to be applied. *)
Definition coerce_body (rv status' headers' : pyval) : outcome (Response * pyval * pyval) :=
  match rv with
  | PyResponse r => Return (r, status', headers')
  | PyStr s | PyBytes s =>
      obind (Werkzeug.response_class s status' headers') (fun r =>
      Return (r, PyNone, PyNone))
  | PyDict _ =>
      obind (Json.jsonify rv) (fun r => Return (r, status', headers'))
  | _ =>
      if Werkzeug.is_base_response rv || Werkzeug.callable rv then
        match Werkzeug.force_type rv with
        | Return r => Return (r, status', headers')
        | Raise e =>
            if isinstance e "TypeError"
            then Raise (Builtins.TypeError
                          (exc_message e ++ newline ++ invalid_type_message rv))
            else Raise e
        end
      else Raise (Builtins.TypeError (invalid_type_message rv))
  end.

(** "prefer the status if it was provided" *)
Definition apply_status (status' : pyval) (r : Response) : outcome Response :=
  match status' with
  | PyNone => Return r
  | PyStr s | PyBytes s => Return (Werkzeug.set_status s r)
  | _ => Werkzeug.set_status_code status' r
  end.

(** "extend existing headers with provided headers" *)
Definition apply_headers (headers' : pyval) (r : Response) : outcome Response :=
  if truthy headers' then
    obind (Werkzeug.header_items headers') (fun hs =>
    Return (mkResponse (body r) (status r) (Werkzeug.headers_update hs (headers r))))
  else Return r.

(** The part of [make_response] after the tuple has been unpacked. *)
Definition build_response (endpoint : string) (rv status' headers' : pyval)
  : outcome Response :=
  match rv with
  | PyNone => Raise (Builtins.TypeError (none_message endpoint))
  | _ =>
      obind (coerce_body rv status' headers') (fun '(r, status', headers') =>
      obind (apply_status status' r) (fun r =>
      apply_headers headers' r))
  end.

Definition make_response (endpoint : string) (rv : pyval) : outcome Response :=
  obind (unpack_tuple rv) (fun '(rv, status', headers') =>
  build_response endpoint rv status' headers').

(** ** Hook chains *)

Definition with_got_first_request (a : Flask) (flag : bool) : Flask :=
  mkFlask (error_handler_spec a) (before_first_request_funcs a) flag
          (url_value_preprocessors a) (before_request_funcs a)
          (after_request_funcs a) (teardown_request_funcs a)
          (PROPAGATE_EXCEPTIONS a) (TRAP_HTTP_EXCEPTIONS a)
          (TRAP_BAD_REQUEST_ERRORS a) (testing a) (debug a).

(** [with self._before_request_lock: body] *)
Definition with_lock {A} (body : M A) : M A :=
  emit (EvLock true) ;;;
  try_finally body (fun _ => emit (EvLock false)).

Definition try_trigger_before_first_request_functions : M unit :=
  a <- get_app ;;
  if _got_first_request a then ret tt
  else with_lock (
    a <- get_app ;;
    if _got_first_request a then ret tt
    else
      for_each (before_first_request_funcs a)
               (fun func => invoke func (fun _ => ArgNone) tt) ;;;
      a <- get_app ;;
      put_app (with_got_first_request a true)).

(** [for handler in funcs: response = handler(response)] *)
Fixpoint run_after (funcs : list (callable Response Response)) (response : Response)
  : M Response :=
  match funcs with
  | [] => ret response
  | handler :: rest =>
      response <- invoke handler ArgResponse response ;;
      run_after rest response
  end.

(** The iteration order that [process_response] builds with [chain] and
    [reversed]. *)
Definition after_request_chain (a : Flask) (ctx : RequestContext)
  : list (callable Response Response) :=
  let bp := blueprint ctx in
  let funcs := _after_request_functions ctx in
  let funcs :=
    match bp with
    | Some b =>
        match after_request_funcs a !! Some b with
        | Some l => (funcs ++ rev l)%list
        | None => funcs
        end
    | None => funcs
    end in
  match after_request_funcs a !! None with
  | Some l => (funcs ++ rev l)%list
  | None => funcs
  end.

Definition process_response (response : Response) : M Response :=
  a <- get_app ;;
  ctx <- get_ctx ;;
  response <- run_after (after_request_chain a ctx) response ;;
  (if negb (null_session ctx) then emit (EvSaveSession response) else ret tt) ;;;
  ret response.

(** The iteration order that [do_teardown_request] builds. *)
Definition teardown_chain (a : Flask) (ctx : RequestContext)
  : list (callable (option exc) unit) :=
  let funcs := rev (default [] (teardown_request_funcs a !! None)) in
  match blueprint ctx with
  | Some b =>
      match teardown_request_funcs a !! Some b with
      | Some l => (funcs ++ rev l)%list
      | None => funcs
      end
  | None => funcs
  end.

(** [exc] is passed explicitly, as [RequestContext.pop] does. *)
Definition do_teardown_request (exc : option exc) : M unit :=
  a <- get_app ;;
  ctx <- get_ctx ;;
  for_each (teardown_chain a ctx) (fun func => invoke func ArgExc exc) ;;;
  emit (EvSignal "request_tearing_down" (ArgExc exc)).

(** [for func in funcs: rv = func(); if rv is not None: return rv] *)
Fixpoint run_before (funcs : list (callable unit pyval)) : M pyval :=
  match funcs with
  | [] => ret PyNone
  | func :: rest =>
      rv <- invoke func (fun _ => ArgNone) tt ;;
      match rv with
      | PyNone => run_before rest
      | _ => ret rv
      end
  end.

(** [funcs = d.get(None, ()); if bp is not None and bp in d: chain(...)] *)
Definition global_then_blueprint {A} (d : gmap (option string) (list A))
           (bp : option string) : list A :=
  let funcs := default [] (d !! None) in
  match bp with
  | Some b =>
      match d !! Some b with
      | Some l => (funcs ++ l)%list
      | None => funcs
      end
  | None => funcs
  end.

Definition preprocess_request : M pyval :=
  a <- get_app ;;
  ctx <- get_ctx ;;
  let bp := blueprint ctx in
  for_each (global_then_blueprint (url_value_preprocessors a) bp)
           (fun func => invoke func (fun _ => ArgNone) tt) ;;;
  run_before (global_then_blueprint (before_request_funcs a) bp).

(** ** Dispatch, finalisation and the 500 fallback *)

Definition finalizing_failed_message : string :=
  "Request finalizing failed with an error while handling an error".

Definition finalize_request (rv : pyval) (from_error_handler : bool) : M Response :=
  ctx <- get_ctx ;;
  response <- lift (make_response (endpoint ctx) rv) ;;
  try_except
    (response <- process_response response ;;
     emit (EvSignal "request_finished" (ArgResponse response)) ;;;
     ret response)
    (fun e => isinstance e "Exception")
    (fun e =>
       if negb from_error_handler then raise e
       else emit (EvLog finalizing_failed_message (Some e)) ;;; ret response).

Definition propagate_exceptions (a : Flask) : bool :=
  match PROPAGATE_EXCEPTIONS a with
  | Some rv => rv
  | None => testing a || debug a
  end.

Definition log_exception (e : exc) : M unit :=
  emit (EvLog "Exception on request" (Some e)).

(** [server_error.original_exception = e] *)
Definition set_original_exception (server_error e : exc) : exc :=
  Exc (exc_type server_error) (exc_message server_error) (Some e).

Definition handle_exception (e : exc) : M Response :=
  emit (EvSignal "got_request_exception" (ArgExc (Some e))) ;;;
  a <- get_app ;;
  if propagate_exceptions a then raise e
  else
    log_exception e ;;;
    let server_error := set_original_exception Builtins.InternalServerError e in
    handler <- _find_error_handler server_error ;;
    server_error <-
      match handler with
      | Some h => invoke h (fun x => ArgExc (Some x)) server_error
      | None => ret (PyExc server_error)
      end ;;
    finalize_request server_error true.

Definition FormDataRoutingRedirect : exc :=
  Exc (PyClass "FormDataRoutingRedirect" ("AssertionError" :: Builtins.base_mro) None)
      "A request was sent to this URL but a redirect was issued automatically by the routing system"
      None.

Definition raise_routing_exception {A} (ctx : RequestContext) (e : exc) : M A :=
  a <- get_app ;;
  if negb (debug a)
     || negb (isinstance e "RequestRedirect")
     || bool_decide (method ctx ∈ ["GET"; "HEAD"; "OPTIONS"])
  then raise e
  else raise FormDataRoutingRedirect.

Definition make_default_options_response : M pyval :=
  ctx <- get_ctx ;;
  ret (PyResponse (mkResponse "" (StatusCode 200)
                     [Werkzeug.default_content_type;
                      ("Allow", Json.join ", " (allowed_methods ctx))])).

Definition dispatch_request : M pyval :=
  ctx <- get_ctx ;;
  match routing_exception ctx with
  | Some e => raise_routing_exception ctx e
  | None =>
      if provide_automatic_options ctx && String.eqb (method ctx) "OPTIONS"
      then make_default_options_response
      else invoke (view_function ctx) (fun _ => ArgNone) tt
  end.

Definition full_dispatch_request : M Response :=
  try_trigger_before_first_request_functions ;;;
  rv <- try_except
          (emit (EvSignal "request_started" ArgNone) ;;;
           rv <- preprocess_request ;;
           match rv with
           | PyNone => dispatch_request
           | _ => ret rv
           end)
          (fun e => isinstance e "Exception")
          handle_user_exception ;;
  finalize_request rv false.

Definition should_ignore_error (error : option exc) : bool := false.

(** Modelled from the spec: [RequestContext.push], [pop] and [auto_pop]
    are defined in [ctx.py].  Per the spec, context pop runs the
    teardown-request hooks, emits the tearing-down notification and then
    pops the request context; "pop is deferred only when an external test
    harness explicitly asks to preserve context", otherwise it happens
    unconditionally in the cleanup block around dispatch. *)
Definition ctx_push : M unit := emit EvPush.

Definition ctx_pop (exc : option exc) : M unit :=
  try_finally (do_teardown_request exc) (fun _ => emit EvPop).

Definition ctx_auto_pop (exc : option exc) : M unit :=
  ctx <- get_ctx ;;
  if preserve_context ctx then emit (EvPreserved exc)
  else ctx_pop exc.

(** The outcome of a computation as a value: what the [except] clauses
    and the [finally] block of [wsgi_app] inspect. *)
Definition attempt {A} (m : M A) : M (outcome A) :=
  fun w => match m w with (o, w') => (Return o, w') end.

(** [error] is the exception seen by one of the two [except] clauses;
    the [finally] block runs on every path. *)
Definition wsgi_app : M Response :=
  o <- attempt (ctx_push ;;; full_dispatch_request) ;;
  let error := match o with Raise e => Some e | Return _ => None end in
  try_finally
    (response <-
       match o with
       | Return response => ret response
       | Raise e => if isinstance e "Exception" then handle_exception e else raise e
       end ;;
     emit (EvStartResponse response) ;;;
     ret response)
    (fun _ => ctx_auto_pop (if should_ignore_error error then None else error)).

(** ** Registration *)

Definition with_before_first_request_funcs (a : Flask)
    (funcs : list (callable unit unit)) : Flask :=
  mkFlask (error_handler_spec a) funcs (_got_first_request a)
          (url_value_preprocessors a) (before_request_funcs a)
          (after_request_funcs a) (teardown_request_funcs a)
          (PROPAGATE_EXCEPTIONS a) (TRAP_HTTP_EXCEPTIONS a)
          (TRAP_BAD_REQUEST_ERRORS a) (testing a) (debug a).

Definition with_after_request_funcs (a : Flask)
    (d : gmap (option string) (list (callable Response Response))) : Flask :=
  mkFlask (error_handler_spec a) (before_first_request_funcs a) (_got_first_request a)
          (url_value_preprocessors a) (before_request_funcs a)
          d (teardown_request_funcs a)
          (PROPAGATE_EXCEPTIONS a) (TRAP_HTTP_EXCEPTIONS a)
          (TRAP_BAD_REQUEST_ERRORS a) (testing a) (debug a).

Definition with_teardown_request_funcs (a : Flask)
    (d : gmap (option string) (list (callable (option exc) unit))) : Flask :=
  mkFlask (error_handler_spec a) (before_first_request_funcs a) (_got_first_request a)
          (url_value_preprocessors a) (before_request_funcs a)
          (after_request_funcs a) d
          (PROPAGATE_EXCEPTIONS a) (TRAP_HTTP_EXCEPTIONS a)
          (TRAP_BAD_REQUEST_ERRORS a) (testing a) (debug a).

Definition AssertionError (msg : string) : exc :=
  Exc (PyClass "AssertionError" Builtins.base_mro None) msg None.

Definition _is_setup_finished (a : Flask) : bool :=
  debug a && _got_first_request a.

(** Modelled from the spec: the [setupmethod] decorator is defined in
    [scaffold.py]; per the spec, "registering after the application has
    served its first request is flagged as a usage error in debug/strict
    mode (a late-registration guard)". *)
Definition setupmethod {S A} (a : Flask) (body : S → outcome A * S)
  : S → outcome A * S :=
  fun s =>
    if _is_setup_finished a
    then (Raise (AssertionError
                   "A setup function was called after the first request was handled."), s)
    else body s.

(** [self.before_first_request_funcs.append(f)], behind the
    [setupmethod] guard; the application is the one before and after the
    call. *)
Definition before_first_request (f : callable unit unit)
  : Flask → outcome unit * Flask :=
  fun a =>
    setupmethod a
      (fun a => (Return tt,
                 with_before_first_request_funcs a (before_first_request_funcs a ++ [f])%list))
      a.

(** [d.setdefault(key, []).append(f)] *)
Definition append_hook {A} (key : option string) (f : A)
           (d : gmap (option string) (list A)) : gmap (option string) (list A) :=
  <[key := (default [] (d !! key) ++ [f])%list]> d.

(** Modelled from the spec: [after_request], [teardown_request] and
    [register_error_handler] are defined in [scaffold.py] and
    [after_this_request] in [ctx.py]; per the spec, "register(scope,
    phase, callable) appends to an ordered sequence keyed by (scope,
    phase)", error handlers being keyed by scope and by exception class
    or status code. *)
Definition after_request (scope : option string) (f : callable Response Response)
           (a : Flask) : Flask :=
  with_after_request_funcs a (append_hook scope f (after_request_funcs a)).

Definition teardown_request (scope : option string) (f : callable (option exc) unit)
           (a : Flask) : Flask :=
  with_teardown_request_funcs a (append_hook scope f (teardown_request_funcs a)).

Definition after_this_request (f : callable Response Response)
           (ctx : RequestContext) : RequestContext :=
  mkRequestContext (blueprint ctx) (endpoint ctx) (method ctx) (allowed_methods ctx)
                   (routing_exception ctx) (provide_automatic_options ctx) (view_function ctx)
                   (_after_request_functions ctx ++ [f])%list
                   (null_session ctx) (preserve_context ctx).

Definition register_error_handler (scope : option string) (exc_class : pyclass)
           (f : error_handler) (a : Flask) : Flask :=
  let '(cls, code) := _get_exc_class_and_code exc_class in
  let by_code := default ∅ (error_handler_spec a !! scope) in
  let handlers := default ∅ (by_code !! code) in
  with_error_handler_spec a
    (<[scope := <[code := <[cls_name cls := f]> handlers]> by_code]>
       (error_handler_spec a)).

(** ** Worlds for examples *)

Module Samples.
Definition app0 : Flask :=
  mkFlask ∅ [] false ∅ ∅ ∅ ∅ None false None false false.

Definition index_view : callable unit pyval :=
  Callable "index" (fun _ => Return (PyStr "ok")).

Definition ctx0 (bp : option string) : RequestContext :=
  mkRequestContext bp "index" "GET" ["GET"; "HEAD"; "OPTIONS"] None false
                   index_view [] true false.

Definition world0 (a : Flask) (ctx : RequestContext) : world := mkWorld a ctx [].

Definition ValueError_class : pyclass := PyClass "ValueError" Builtins.base_mro None.
Definition KeyboardInterrupt_class : pyclass :=
  PyClass "KeyboardInterrupt" ["BaseException"; "object"] None.
Definition NotFound_class : pyclass :=
  PyClass "NotFound" ("HTTPException" :: Builtins.base_mro) (Some 404).
Definition RequestRedirect_class : pyclass :=
  PyClass "RequestRedirect"
          ("HTTPException" :: "RoutingException" :: Builtins.base_mro) (Some 308).

Definition boom : exc := Exc ValueError_class "boom" None.

Definition on_error (name reply : string) : error_handler :=
  Callable name (fun _ => Return (PyStr reply)).

Definition tag (name : string) : callable Response Response :=
  Callable name (fun r => Return (mkResponse (body r ++ name) (status r) (headers r))).

Definition quiet (name : string) : callable (option exc) unit :=
  Callable name (fun _ => Return tt).

(** The names of the user functions called, in call order. *)
Definition calls (tr : list event) : list string :=
  omap (fun ev => match ev with EvCall n _ => Some n | _ => None end) tr.
End Samples.

(** ** Resolution order of the error dispatcher, as the spec words it *)

(** The handler that the table of [scope] for key [c] holds for the
    class or an ancestor, nearest ancestor first. *)
Definition registered_handler
    (spec : gmap (option string) (gmap (option Z) (gmap string error_handler)))
    (scope : option string) (c : option Z) (mro : list string)
  : option error_handler :=
  match spec !! scope with
  | Some by_code =>
      match by_code !! c with
      | Some handler_map => mro_walk handler_map mro
      | None => None
      end
  | None => None
  end.

Fixpoint first_match {A} (candidates : list (option A)) : option A :=
  match candidates with
  | [] => None
  | Some h :: _ => Some h
  | None :: rest => first_match rest
  end.

(** The status code that an exception carries, if it carries one. *)
Definition status_code_of (e : exc) : option Z :=
  snd (_get_exc_class_and_code (exc_type e)).

(** Steps 1 to 4 of the spec's resolution order; the first match wins. *)
Definition resolution_order
    (spec : gmap (option string) (gmap (option Z) (gmap string error_handler)))
    (scope : option string) (e : exc) : option error_handler :=
  let mro := __mro__ (exc_type e) in
  let for_code name :=
    match status_code_of e with
    | Some code => registered_handler spec name (Some code) mro
    | None => None
    end in
  let for_class name := registered_handler spec name None mro in
  first_match [for_code scope; for_code None; for_class scope; for_class None].

(** The world with [error_handler_spec] replaced. *)
Definition set_spec (w : world)
    (spec : gmap (option string) (gmap (option Z) (gmap string error_handler))) : world :=
  mkWorld (with_error_handler_spec (w_app w) spec) (w_ctx w) (w_trace w).

(** What [setdefault(name, {})] leaves in the table. *)
Definition touch (name : option string)
    (spec : gmap (option string) (gmap (option Z) (gmap string error_handler))) :=
  match spec !! name with
  | Some _ => spec
  | None => <[name := ∅]> spec
  end.

(** The world after one more event. *)
Definition add_event (w : world) (ev : event) : world :=
  mkWorld (w_app w) (w_ctx w) (w_trace w ++ [ev]).

(** The 500 object that [handle_exception] offers to the handlers. *)
Definition server_error_for (e : exc) : exc :=
  set_original_exception Builtins.InternalServerError e.

(** An outcome that is not an [Exception] being raised. *)
Definition raises_no_Exception {A} (o : outcome A) : Prop :=
  match o with
  | Return _ => True
  | Raise ex => isinstance ex "Exception" = false
  end.

Definition is_raise {A} (o : outcome A) : bool :=
  match o with
  | Return _ => false
  | Raise _ => true
  end.

(** ** Hook chains spelled out *)

(** What an after-request hook makes of a response when it returns. *)
Definition apply_hook (h : callable Response Response) (r : Response) : Response :=
  match fn_call h r with
  | Return r' => r'
  | Raise _ => r
  end.

(** The calls of a chain of after-request hooks: each hook is called
    with the response that the hook before it returned. *)
Fixpoint after_events (funcs : list (callable Response Response)) (response : Response)
  : list event :=
  match funcs with
  | [] => []
  | h :: rest =>
      EvCall (fn_name h) (ArgResponse response) :: after_events rest (apply_hook h response)
  end.

(** The calls of a chain of hooks that all take the same argument. *)
Definition call_events {A B} (funcs : list (callable A B)) (arg : call_arg) : list event :=
  map (fun h => EvCall (fn_name h) arg) funcs.

(** A hook that returns on every argument. *)
Definition never_raises {A B} (h : callable A B) : Prop :=
  ∀ a, is_raise (fn_call h a) = false.

(** The hooks that a dictionary of hooks holds for the blueprint of the
    request, and for the application. *)
Definition scoped_hooks {A} (d : gmap (option string) (list A))
           (bp : option string) : list A :=
  match bp with
  | Some b => default [] (d !! Some b)
  | None => []
  end.

Definition global_hooks {A} (d : gmap (option string) (list A)) : list A :=
  default [] (d !! None).

Definition add_events (w : world) (evs : list event) : world :=
  mkWorld (w_app w) (w_ctx w) (w_trace w ++ evs).

Definition set_got_first_request (w : world) : world :=
  mkWorld (with_got_first_request (w_app w) true) (w_ctx w) (w_trace w).

(** The world after [n] more calls of
    [try_trigger_before_first_request_functions]. *)
Fixpoint trigger_times (n : nat) (w : world) : world :=
  match n with
  | O => w
  | S n' => trigger_times n' (snd (try_trigger_before_first_request_functions w))
  end.

(** The events that [handle_exception] records before the lookup. *)
Definition reported (e : exc) : list event :=
  [EvSignal "got_request_exception" (ArgExc (Some e));
   EvLog "Exception on request" (Some e)].

(** What the 500 stage of [handle_exception] hands to finalisation: the
    500 object itself, or what the handler found for it makes of it. *)
Definition offered (w : world) (e : exc) : outcome pyval :=
  match resolution_order (error_handler_spec (w_app w)) (blueprint (w_ctx w))
                         (server_error_for e) with
  | None => Return (PyExc (server_error_for e))
  | Some h => fn_call h (server_error_for e)
  end.

(** The calls of the 500 handler, if one is found. *)
Definition offer_events (w : world) (e : exc) : list event :=
  match resolution_order (error_handler_spec (w_app w)) (blueprint (w_ctx w))
                         (server_error_for e) with
  | None => []
  | Some h => [EvCall (fn_name h) (ArgExc (Some (server_error_for e)))]
  end.

(** ** Scenarios *)

Module Scenarios.
Import Samples.

(** Handlers for [ValueError] on the application and on blueprint "bp". *)
Definition app_both : Flask :=
  register_error_handler (Some "bp") ValueError_class (on_error "hb" "from bp")
    (register_error_handler None ValueError_class (on_error "hg" "from app") app0).

Definition world_both : world := world0 app_both (ctx0 (Some "bp")).

(** A view that raises [ValueError("boom")]. *)
Definition failing_view : callable unit pyval :=
  Callable "index" (fun _ => Raise boom).

Definition ctx_failing : RequestContext :=
  mkRequestContext None "index" "GET" ["GET"; "HEAD"; "OPTIONS"] None false
                   failing_view [] true false.

(** A 500 handler that returns [None]. *)
Definition app_none500 : Flask :=
  register_error_handler None Builtins.InternalServerError_class
                         (Callable "on500" (fun _ => Return PyNone)) app0.

Definition world_none500 : world := world0 app_none500 ctx_failing.
Definition world_unhandled : world := world0 app0 ctx_failing.

(** Hooks [h1], [h2], [h3] on the application, [b1], [b2] on blueprint
    "bp" and [r1], [r2] for this one request, registered in that order. *)
Definition app_after : Flask :=
  after_request (Some "bp") (tag "b2")
    (after_request (Some "bp") (tag "b1")
       (after_request None (tag "h3")
          (after_request None (tag "h2")
             (after_request None (tag "h1") app0)))).

Definition ctx_after : RequestContext :=
  after_this_request (tag "r2") (after_this_request (tag "r1") (ctx0 (Some "bp"))).

Definition world_after : world := world0 app_after ctx_after.

Definition plain : Response := mkResponse "" (StatusCode 200) [].

(** Teardown hooks [g1], [g2] on the application and [b1], [b2] on
    blueprint "bp", registered in that order. *)
Definition app_teardown : Flask :=
  teardown_request (Some "bp") (quiet "b2")
    (teardown_request (Some "bp") (quiet "b1")
       (teardown_request None (quiet "g2")
          (teardown_request None (quiet "g1") app0))).

Definition world_teardown : world := world0 app_teardown (ctx0 (Some "bp")).

(** Before-first-request hooks: [f1] returns, [f2] raises. *)
Definition app_first_raising : Flask :=
  snd (before_first_request (Callable "f2" (fun _ => Raise boom))
         (snd (before_first_request (Callable "f1" (fun _ => Return tt)) app0))).

Definition app_first : Flask :=
  snd (before_first_request (Callable "f2" (fun _ => Return tt))
         (snd (before_first_request (Callable "f1" (fun _ => Return tt)) app0))).

Definition redirect : exc := Exc RequestRedirect_class "redirect" None.

(** A handler registered for every [Exception]. *)
Definition app_catch_all : Flask :=
  register_error_handler None (PyClass "Exception" ["BaseException"; "object"] None)
                         (on_error "catch_all" "caught") app0.

(** An after-request hook that raises. *)
Definition app_after_raising : Flask :=
  after_request None (Callable "bad" (fun _ => Raise boom)) app0.

Definition world_after_raising : world := world0 app_after_raising (ctx0 None).
End Scenarios.

(** ** Predicates on hooks *)

(** A before-request hook that returns [None] (and so lets the dispatch
    go on). *)
Definition returns_None (h : callable unit pyval) : Prop :=
  fn_call h tt = Return PyNone.

(** The world of the application object [a] with the same request
    context and trace. *)
Definition set_app (w : world) (a : Flask) : world :=
  mkWorld a (w_ctx w) (w_trace w).

(** ** More scenarios *)

Module Cases.
Import Samples.

Definition not_found : exc := Exc NotFound_class "Not Found" None.

Definition app_trap : Flask :=
  mkFlask ∅ [] false ∅ ∅ ∅ ∅ None true None false false.

Definition app_debug : Flask :=
  mkFlask ∅ [] false ∅ ∅ ∅ ∅ None false None false true.

Definition pass (name : string) : callable unit pyval :=
  Callable name (fun _ => Return PyNone).

Definition answer (name reply : string) : callable unit pyval :=
  Callable name (fun _ => Return (PyStr reply)).

Definition noop (name : string) : callable unit unit :=
  Callable name (fun _ => Return tt).

(** Before-request hooks [g1] (application) and [b1], [b2], [b3]
    (blueprint "bp"); [b2] answers the request itself. *)
Definition app_before : Flask :=
  mkFlask ∅ [] true
          {[ None := [noop "u1"] ]}
          {[ None := [pass "g1"];
             Some "bp" := [pass "b1"; answer "b2" "early"; pass "b3"] ]}
          ∅ ∅ None false None false false.

Definition ctx_redirect (m : string) : RequestContext :=
  mkRequestContext None "index" m ["GET"; "HEAD"; "OPTIONS"]
                   (Some Scenarios.redirect) false index_view [] true false.

Definition ctx_options : RequestContext :=
  mkRequestContext None "index" "OPTIONS" ["GET"; "HEAD"; "OPTIONS"]
                   None true index_view [] true false.

Definition interrupt : exc := Exc KeyboardInterrupt_class "" None.

Definition ctx_interrupted : RequestContext :=
  mkRequestContext None "index" "GET" ["GET"; "HEAD"; "OPTIONS"] None false
                   (Callable "index" (fun _ => Raise interrupt)) [] true false.

(** After-request hooks [h1], [bad], [h3] on the application; [bad]
    raises. *)
Definition app_after_middle_raises : Flask :=
  after_request None (tag "h3")
    (after_request None (Callable "bad" (fun _ => Raise boom))
       (after_request None (tag "h1") app0)).

Definition ctx_session : RequestContext :=
  mkRequestContext None "index" "GET" ["GET"; "HEAD"; "OPTIONS"] None false
                   index_view [] false false.

(** Teardown hooks [t1], [bad], [t3] on the application; [bad] raises. *)
Definition app_teardown_raises : Flask :=
  teardown_request None (quiet "t3")
    (teardown_request None (Callable "bad" (fun _ => Raise boom))
       (teardown_request None (quiet "t1") app0)).

(** [TRAP_HTTP_EXCEPTIONS] set and a handler registered for every
    [Exception]. *)
Definition app_trap_catch_all : Flask :=
  register_error_handler None (PyClass "Exception" ["BaseException"; "object"] None)
                         (on_error "catch_all" "caught") app_trap.
End Cases.

(** The [finally] block of [wsgi_app] after the outcome [o] in world
    [w]: the auto-pop runs, and an exception of its own replaces [o]. *)
Definition after_auto_pop (error : option exc) (o : outcome Response) (w : world)
  : outcome Response * world :=
  match ctx_auto_pop error w with
  | (Return _, w3) => (o, w3)
  | (Raise e', w3) => (Raise e', w3)
  end.

(** ** Other methods of the application *)

(** Python dictionaries with string keys, as the template and URL
    helpers pass them around. *)
Abbreviation pydict := (gmap string pyval).

Definition KeyError (msg : string) : exc :=
  Exc (PyClass "KeyError" ("LookupError" :: Builtins.base_mro) None) msg None.

(** [self.teardown_appcontext_funcs.append(f)]; the list is the
    attribute before and after the call. *)
Definition teardown_appcontext (a : Flask) (f : callable (option exc) unit)
  : list (callable (option exc) unit)
    → outcome unit * list (callable (option exc) unit) :=
  setupmethod a (fun teardown_appcontext_funcs =>
                   (Return tt, (teardown_appcontext_funcs ++ [f])%list)).

(** [exc] is passed explicitly, as [AppContext.pop] does. *)
Definition do_teardown_appcontext
           (teardown_appcontext_funcs : list (callable (option exc) unit))
           (exc : option exc) : M unit :=
  for_each (rev teardown_appcontext_funcs) (fun func => invoke func ArgExc exc) ;;;
  emit (EvSignal "appcontext_tearing_down" (ArgExc exc)).

(** A URL build error handler is called with the error, the endpoint
    and the values; the call is recorded with the error it was given. *)
Definition build_error_handler := callable (exc * string * pydict) pyval.

Definition describe_build_error (args : exc * string * pydict) : call_arg :=
  ArgExc (Some (fst (fst args))).

(** The loop of [handle_url_build_error] and the two [raise] statements
    after it; [error] is the local variable that a [BuildError] raised by
    a handler replaces. *)
Fixpoint handle_url_build_error (url_build_error_handlers : list build_error_handler)
         (error : exc) (endpoint : string) (values : pydict) : M pyval :=
  match url_build_error_handlers with
  | [] => raise error
  | handler :: rest =>
      o <- attempt (invoke handler describe_build_error (error, endpoint, values)) ;;
      match o with
      | Raise e =>
          if isinstance e "BuildError"
          then handle_url_build_error rest e endpoint values
          else raise e
      | Return PyNone => handle_url_build_error rest error endpoint values
      | Return rv => ret rv
      end
  end.

(** ["." in endpoint] *)
Fixpoint contains_dot (s : string) : bool :=
  match s with
  | EmptyString => false
  | String c rest => Ascii.eqb c "." || contains_dot rest
  end.

(** [endpoint.rsplit(".", 1)[0]] for an endpoint that contains a dot:
    what stands before the last dot. *)
Fixpoint before_last_dot (s : string) : string :=
  match s with
  | EmptyString => EmptyString
  | String c rest =>
      if contains_dot rest then String c (before_last_dot rest) else EmptyString
  end.

(** A URL default function changes [values] in place; here it returns
    the dictionary it leaves. *)
Definition url_default_function := callable (string * pydict) pydict.

(** The functions that [inject_url_defaults] calls, in call order. *)
Definition url_default_chain
           (url_default_functions : gmap (option string) (list url_default_function))
           (endpoint : string) : list url_default_function :=
  let funcs := default [] (url_default_functions !! None) in
  if contains_dot endpoint then
    let bp := before_last_dot endpoint in
    (funcs ++ default [] (url_default_functions !! Some bp))%list
  else funcs.

(** [for func in funcs: func(endpoint, values)] *)
Fixpoint run_url_defaults (funcs : list url_default_function)
         (endpoint : string) (values : pydict) : M pydict :=
  match funcs with
  | [] => ret values
  | func :: rest =>
      values <- invoke func (fun _ => ArgNone) (endpoint, values) ;;
      run_url_defaults rest endpoint values
  end.

Definition inject_url_defaults
           (url_default_functions : gmap (option string) (list url_default_function))
           (endpoint : string) (values : pydict) : M pydict :=
  run_url_defaults (url_default_chain url_default_functions endpoint) endpoint values.

(** [str.endswith(suffix)] *)
Fixpoint endswith (s suffix : string) : bool :=
  if String.eqb s suffix then true
  else match s with
       | EmptyString => false
       | String _ rest => endswith rest suffix
       end.

Definition select_jinja_autoescape (filename : option string) : bool :=
  match filename with
  | None => true
  | Some f => existsb (endswith f) [".html"; ".htm"; ".xml"; ".xhtml"]
  end.

(** A template context processor returns the variables it injects. *)
Definition context_processor := callable unit pydict.

(** [for func in funcs: context.update(func())] *)
Fixpoint run_context_processors (funcs : list context_processor) (context : pydict)
  : M pydict :=
  match funcs with
  | [] => ret context
  | func :: rest =>
      injected <- invoke func (fun _ => ArgNone) tt ;;
      run_context_processors rest (injected ∪ context)
  end.

(** [reqctx] is [_request_ctx_stack.top]; the result is the dictionary
    that the method leaves in [context]. *)
Definition update_template_context
           (template_context_processors : gmap (option string) (list context_processor))
           (reqctx : option RequestContext) (context : pydict) : M pydict :=
  match template_context_processors !! None with
  | None => raise (KeyError "None")
  | Some funcs =>
      let funcs :=
        match reqctx with
        | Some ctx =>
            match blueprint ctx with
            | Some bp =>
                match template_context_processors !! Some bp with
                | Some l => (funcs ++ l)%list
                | None => funcs
                end
            | None => funcs
            end
        | None => funcs
        end in
      let orig_ctx := context in
      context <- run_context_processors funcs context ;;
      ret (orig_ctx ∪ context)
  end.

(** [rv = {"app": self, "g": g}] with the two objects as opaque values. *)
Definition make_shell_context (shell_context_processors : list context_processor)
  : M pydict :=
  run_context_processors shell_context_processors
    {[ "app" := PyObject "Flask"; "g" := PyObject "_AppCtxGlobals" ]}.

(** ** Blueprints and URL rules *)

(** A blueprint object: its name, its identity (what [is] compares) and
    its [register] method.  The method is defined in [blueprints.py];
    the application only calls it, so the object carries what the call
    gives for each [first_registration] flag: it returns or it raises. *)
Record Blueprint := mkBlueprint {
  bp_name : string;
  bp_id : nat;
  bp_register : bool → outcome unit
}.

(** The two attributes of the application that [register_blueprint]
    writes, and the calls of [blueprint.register] made so far, each with
    the blueprint and the [first_registration] flag it was given. *)
Record Blueprints := mkBlueprints {
  blueprints : gmap string Blueprint;
  _blueprint_order : list Blueprint;
  register_calls : list (Blueprint * bool)
}.

(** [blueprint.register(self, options, first_registration)]: the call
    is recorded and its outcome is the outcome of the method. *)
Definition call_register (blueprint : Blueprint) (first_registration : bool)
  : Blueprints → outcome unit * Blueprints :=
  fun s =>
    (bp_register blueprint first_registration,
     mkBlueprints (blueprints s) (_blueprint_order s)
                  (register_calls s ++ [(blueprint, first_registration)])%list).

Definition register_blueprint (a : Flask) (blueprint : Blueprint)
  : Blueprints → outcome unit * Blueprints :=
  setupmethod a (fun s =>
    match blueprints s !! bp_name blueprint with
    | Some registered =>
        if Nat.eqb (bp_id registered) (bp_id blueprint)
        then call_register blueprint false s
        else (Raise (AssertionError "A name collision occurred between blueprints"), s)
    | None =>
        call_register blueprint true
          (mkBlueprints (<[bp_name blueprint := blueprint]> (blueprints s))
                        (_blueprint_order s ++ [blueprint])%list
                        (register_calls s))
    end).

Definition iter_blueprints (s : Blueprints) : list Blueprint := _blueprint_order s.

(** The [methods] option of a rule or attribute of a view function:
    absent, a string, or a sequence of strings. *)
Inductive methods_arg :=
| MethodsNone
| MethodsStr (s : string)
| MethodsSeq (items : list string).

(** A view function with its identity and the attributes that
    [add_url_rule] reads with [getattr]. *)
Record view_func := mkView {
  view_id : nat;
  view_methods : methods_arg;
  view_required_methods : list string;
  view_provide_automatic_options : option bool
}.

(** A rule as [add_url_rule] hands it to the URL map. *)
Record Rule := mkRule {
  rule_string : string;
  rule_endpoint : string;
  rule_methods : gset string;
  rule_provide_automatic_options : bool
}.

Record Routes := mkRoutes {
  url_map : list Rule;
  view_functions : gmap string view_func
}.

Definition upper_ascii (c : ascii) : ascii :=
  let n := nat_of_ascii c in
  if (97 <=? n)%nat && (n <=? 122)%nat then ascii_of_nat (n - 32) else c.

(** [str.upper] on ASCII text. *)
Fixpoint upper (s : string) : string :=
  match s with
  | EmptyString => EmptyString
  | String c rest => String (upper_ascii c) (upper rest)
  end.

(** Python truth value of a [methods] value. *)
Definition methods_truthy (m : methods_arg) : bool :=
  match m with
  | MethodsNone => false
  | MethodsStr s => negb (String.eqb s "")
  | MethodsSeq items => negb (Nat.eqb (length items) 0)
  end.

Definition methods_type_error : exc :=
  Builtins.TypeError
    "Allowed methods must be a list of strings, for example: @app.route(..., methods=['POST'])".

(** The last block of [add_url_rule]: [if view_func is not None: ...]. *)
Definition register_view_func (endpoint : string) (view : option view_func)
  : Routes → outcome unit * Routes :=
  fun s =>
    match view with
    | None => (Return tt, s)
    | Some v =>
        match view_functions s !! endpoint with
        | Some old_func =>
            if negb (Nat.eqb (view_id old_func) (view_id v))
            then (Raise (AssertionError
                           ("View function mapping is overwriting an existing endpoint function: "
                            ++ endpoint)), s)
            else (Return tt, mkRoutes (url_map s) (<[endpoint := v]> (view_functions s)))
        | None => (Return tt, mkRoutes (url_map s) (<[endpoint := v]> (view_functions s)))
        end
    end.

(** [add_url_rule]; [endpoint_of] stands for [_endpoint_from_view_func]
    of [scaffold.py], which names the endpoint of a view function.  The
    rule is added to the URL map before the view function is looked at,
    so the state returned with an [AssertionError] already holds it.  The
    methods of the rule are those that the method passes to the rule
    class. *)
Definition add_url_rule (a : Flask) (endpoint_of : option view_func → outcome string)
           (rule : string) (endpoint : option string)
           (view : option view_func) (provide_automatic_options : option bool)
           (methods : methods_arg) : Routes → outcome unit * Routes :=
  setupmethod a (fun s =>
    match (match endpoint with
           | Some ep => Return ep
           | None => endpoint_of view
           end) with
    | Raise e => (Raise e, s)
    | Return endpoint =>
        let methods :=
          match methods with
          | MethodsNone =>
              let attr := match view with
                          | Some v => view_methods v
                          | None => MethodsNone
                          end in
              if methods_truthy attr then attr else MethodsSeq ["GET"]
          | _ => methods
          end in
        match methods with
        | MethodsStr _ => (Raise methods_type_error, s)
        | MethodsNone => (Raise (Builtins.TypeError "'NoneType' object is not iterable"), s)
        | MethodsSeq items =>
            let methods : gset string := list_to_set (map upper items) in
            let required_methods : gset string :=
              match view with
              | Some v => list_to_set (view_required_methods v)
              | None => ∅
              end in
            let provide_automatic_options :=
              match provide_automatic_options with
              | Some b => Some b
              | None => match view with
                        | Some v => view_provide_automatic_options v
                        | None => None
                        end
              end in
            let '(provide_automatic_options, required_methods) :=
              match provide_automatic_options with
              | Some b => (b, required_methods)
              | None =>
                  if bool_decide ("OPTIONS" ∈ methods)
                  then (false, required_methods)
                  else (true, required_methods ∪ {["OPTIONS"]})
              end in
            let methods := methods ∪ required_methods in
            let url_map' :=
              (url_map s ++ [mkRule rule endpoint methods provide_automatic_options])%list in
            register_view_func endpoint view (mkRoutes url_map' (view_functions s))
        end
    end).

(** ** Predicates and scenarios for the other methods *)

(** A build error handler that returns [None] for this error: the next
    handler is tried. *)
Definition defers (endpoint : string) (values : pydict) (error : exc)
           (h : build_error_handler) : Prop :=
  fn_call h (error, endpoint, values) = Return PyNone.

(** What a context processor injects when it returns. *)
Definition injected (f : context_processor) : pydict :=
  match fn_call f tt with
  | Return d => d
  | Raise _ => ∅
  end.

(** The dictionary after the processors have updated it in turn. *)
Definition merged (funcs : list context_processor) (context : pydict) : pydict :=
  fold_left (fun ctx f => injected f ∪ ctx) funcs context.

(** What a URL default function leaves of [values] when it returns. *)
Definition apply_url_default (endpoint : string) (f : url_default_function)
           (values : pydict) : pydict :=
  match fn_call f (endpoint, values) with
  | Return d => d
  | Raise _ => values
  end.

(** Every blueprint in the order list is the one registered under its
    name, every registered blueprint is in the list, and no name occurs
    twice in it. *)
Definition blueprints_consistent (s : Blueprints) : Prop :=
  NoDup (map bp_name (_blueprint_order s))
  ∧ ∀ b, In b (_blueprint_order s) ↔ blueprints s !! bp_name b = Some b.

Module Others.
Import Samples.

Definition BuildError (msg : string) : exc :=
  Exc (PyClass "BuildError" ("RoutingException" :: Builtins.base_mro) None) msg None.

Definition no_url : build_error_handler :=
  Callable "no_url" (fun _ => Return PyNone).

Definition external_url : build_error_handler :=
  Callable "external_url" (fun _ => Return (PyStr "https://example.org/")).

Definition rebuild : build_error_handler :=
  Callable "rebuild" (fun _ => Raise (BuildError "second")).

Definition crash : build_error_handler :=
  Callable "crash" (fun _ => Raise boom).

Definition set_lang (name lang : string) : url_default_function :=
  Callable name (fun args => Return (<["lang" := PyStr lang]> (snd args))).

Definition inject (name key value : string) : context_processor :=
  Callable name (fun _ => Return {[ key := PyStr value ]}).

Definition admin : Blueprint := mkBlueprint "admin" 1 (fun _ => Return tt).
Definition admin_copy : Blueprint := mkBlueprint "admin" 2 (fun _ => Return tt).
Definition api : Blueprint := mkBlueprint "api" 3 (fun _ => Return tt).

Definition no_blueprints : Blueprints := mkBlueprints ∅ [] [].
Definition no_routes : Routes := mkRoutes [] ∅.

Definition plain_view (id : nat) : view_func := mkView id MethodsNone [] None.

Definition name_of (v : option view_func) : outcome string :=
  match v with
  | Some _ => Return "view"
  | None => Raise (AssertionError "expected view func if endpoint is not provided.")
  end.
End Others.

(** The body of the [try] block of [full_dispatch_request]. *)
Definition dispatch_attempt : M pyval :=
  emit (EvSignal "request_started" ArgNone) ;;;
  rv <- preprocess_request ;;
  match rv with
  | PyNone => dispatch_request
  | _ => ret rv
  end.

(** * Properties *)

Open Scope list_scope.

Section ErrorLookup.
Implicit Types (spec : gmap (option string) (gmap (option Z) (gmap string error_handler))).
Implicit Types (w : world) (mro : list string).

Lemma set_spec_id w : set_spec w (error_handler_spec (w_app w)) = w.
Proof. destruct w as [[] ? ?]; reflexivity. Qed.

Lemma mro_walk_empty mro : mro_walk ∅ mro = None.
Proof. induction mro as [|cls rest IH]; simpl; [done|]. by rewrite lookup_empty. Qed.

Lemma registered_handler_touch name spec scope c mro :
  registered_handler (touch name spec) scope c mro = registered_handler spec scope c mro.
Proof.
  unfold touch, registered_handler.
  destruct (spec !! name) eqn:Hn; [done|].
  destruct (decide (name = scope)) as [->|Hne].
  - rewrite lookup_insert_eq, Hn. by rewrite lookup_empty.
  - by rewrite lookup_insert_ne.
Qed.

Lemma setdefault_spec_run name w :
  setdefault_spec name w =
    (Return (default ∅ (error_handler_spec (w_app w) !! name)),
     set_spec w (touch name (error_handler_spec (w_app w)))).
Proof.
  unfold setdefault_spec, touch, bind, get_app; simpl.
  destruct (error_handler_spec (w_app w) !! name) eqn:Hn; simpl.
  - unfold ret. by rewrite set_spec_id.
  - reflexivity.
Qed.

(** One turn of the outer loop looks up exactly [registered_handler]. *)
Lemma loop_turn spec name c mro :
  match default ∅ (spec !! name) !! c with
  | None => None
  | Some handler_map =>
      if Nat.eqb (size handler_map) 0 then None else mro_walk handler_map mro
  end = registered_handler spec name c mro.
Proof.
  unfold registered_handler.
  destruct (spec !! name) as [by_code|]; simpl; [|by rewrite lookup_empty].
  destruct (by_code !! c) as [handler_map|]; [|done].
  destruct (Nat.eqb_spec (size handler_map) 0) as [Hz|]; [|done].
  apply map_size_empty_inv in Hz. subst. by rewrite mro_walk_empty.
Qed.

Lemma find_in_run keys mro w :
  ∃ spec',
    find_in keys mro w =
      (Return (first_match
                 (map (λ '(name, c),
                         registered_handler (error_handler_spec (w_app w)) name c mro)
                      keys)),
       set_spec w spec')
    ∧ ∀ scope c mro',
        registered_handler spec' scope c mro'
        = registered_handler (error_handler_spec (w_app w)) scope c mro'.
Proof.
  revert w. induction keys as [|[name c] rest IH]; intros w.
  - exists (error_handler_spec (w_app w)). simpl. unfold ret.
    by rewrite set_spec_id.
  - cbn [find_in map first_match]. unfold bind at 1. rewrite setdefault_spec_run.
    set (spec := error_handler_spec (w_app w)).
    set (w1 := set_spec w (touch name spec)).
    destruct (IH w1) as (spec' & Hrun & Hsame).
    assert (Hrest :
      map (λ '(name0, c0), registered_handler (error_handler_spec (w_app w1)) name0 c0 mro) rest
      = map (λ '(name0, c0), registered_handler spec name0 c0 mro) rest).
    { apply map_ext. intros [n0 c0]. simpl. apply registered_handler_touch. }
    rewrite Hrest in Hrun.
    assert (Hsame' : ∀ scope c0 mro',
               registered_handler spec' scope c0 mro'
               = registered_handler spec scope c0 mro').
    { intros. rewrite Hsame. simpl. apply registered_handler_touch. }
    pose proof (loop_turn spec name c mro) as Hturn.
    destruct (default ∅ (spec !! name) !! c) as [handler_map|] eqn:Hc.
    + destruct (Nat.eqb (size handler_map) 0) eqn:Hsz.
      * rewrite <- Hturn. exists spec'. split; [exact Hrun|exact Hsame'].
      * rewrite <- Hturn.
        destruct (mro_walk handler_map mro) as [h|] eqn:Hwalk.
        -- exists (touch name spec). split; [reflexivity|].
           intros. apply registered_handler_touch.
        -- exists spec'. split; [exact Hrun|exact Hsame'].
    + rewrite <- Hturn. exists spec'. split; [exact Hrun|exact Hsame'].
Qed.

Lemma first_match_repeat {A} (x y : option A) :
  first_match [x; y; x; y] = first_match [x; y].
Proof. by destruct x, y. Qed.
End ErrorLookup.

Section Resolution.
Implicit Types (w : world) (e : exc).

Lemma get_exc_class_and_code_fst (c : pyclass) : fst (_get_exc_class_and_code c) = c.
Proof. unfold _get_exc_class_and_code. by destruct (issubclass c "HTTPException"). Qed.

(** The lookup returns what the resolution order names; it only adds
    empty tables to [error_handler_spec] and calls nothing. *)
Lemma find_error_handler_run e w :
  ∃ spec',
    _find_error_handler e w =
      (Return (resolution_order (error_handler_spec (w_app w)) (blueprint (w_ctx w)) e),
       set_spec w spec')
    ∧ ∀ scope c mro,
        registered_handler spec' scope c mro
        = registered_handler (error_handler_spec (w_app w)) scope c mro.
Proof.
  unfold _find_error_handler, resolution_order, status_code_of.
  pose proof (get_exc_class_and_code_fst (exc_type e)) as Hfst.
  destruct (_get_exc_class_and_code (exc_type e)) as [exc_class code].
  simpl in Hfst. subst exc_class. cbn [snd].
  unfold bind at 1, get_ctx.
  destruct (find_in_run
              [(blueprint (w_ctx w), code); (None, code);
               (blueprint (w_ctx w), None); (None, None)]
              (__mro__ (exc_type e)) w) as (spec' & Hrun & Hsame).
  exists spec'. split; [|exact Hsame].
  rewrite Hrun. cbn [map]. destruct code as [c|].
  - reflexivity.
  - by rewrite first_match_repeat.
Qed.


Lemma set_spec_ctx w spec : w_ctx (set_spec w spec) = w_ctx w.
Proof. reflexivity. Qed.
End Resolution.

Section Registered.
Implicit Types (a : Flask) (e : exc) (f : error_handler).




End Registered.


Section Finalisation.
Implicit Types (w : world) (rv : pyval) (response : Response).

Lemma emit_run ev w : emit ev w = (Return tt, add_event w ev).
Proof. reflexivity. Qed.

(** [finalize_request], one case per path through the method. *)
Lemma finalize_request_run rv from_error_handler w :
  finalize_request rv from_error_handler w =
    match make_response (endpoint (w_ctx w)) rv with
    | Raise ex => (Raise ex, w)
    | Return response =>
        match process_response response w with
        | (Return r', w') =>
            (Return r', add_event w' (EvSignal "request_finished" (ArgResponse r')))
        | (Raise ex, w') =>
            if isinstance ex "Exception" && from_error_handler
            then (Return response,
                  add_event w' (EvLog finalizing_failed_message (Some ex)))
            else (Raise ex, w')
        end
    end.
Proof.
  unfold finalize_request, bind, get_ctx, lift, try_except.
  destruct (make_response (endpoint (w_ctx w)) rv) as [response|ex]; [|done].
  destruct (process_response response w) as [[r'|ex] w']; simpl; [done|].
  destruct (isinstance ex "Exception"), from_error_handler; done.
Qed.
End Finalisation.

(** C6: when the after-request processing of the normalised response
    raises an exception, [finalize_request] lets it through on a normal
    pass, and on an error-recovery pass ([from_error_handler]) logs it and
    returns the normalised response. *)
Theorem finalize_request_suppresses_on_recovery
    (w w' : world) (rv : pyval) (response : Response) (ex : exc) :
  make_response (endpoint (w_ctx w)) rv = Return response →
  process_response response w = (Raise ex, w') →
  isinstance ex "Exception" = true →
  finalize_request rv false w = (Raise ex, w')
  ∧ finalize_request rv true w =
      (Return response, add_event w' (EvLog finalizing_failed_message (Some ex))).
Proof.
  intros Hmake Hproc Hexc.
  rewrite !finalize_request_run, Hmake, Hproc, Hexc. by split.
Qed.

Section Headers.
Implicit Types (hs old new : list (string * string)) (k v : string).



(** [update] leaves every new header in the result when the new keys
    are pairwise distinct; here for the last one. *)
Lemma headers_set_has k v hs : In (k, v) (Werkzeug.headers_set k v hs).
Proof.
  induction hs as [|[k0 v0] rest IH]; simpl; [by left|].
  destruct (String.eqb k0 k); simpl; [by left|by right].
Qed.
End Headers.


(** C8: an absent result never becomes a response: for [None], and for
    a 2-tuple or 3-tuple whose body is [None], [make_response] raises a
    [TypeError]. *)
Theorem make_response_none_raises (endpoint : string) (second third : pyval) :
  let err := Builtins.TypeError (none_message endpoint) in
  isinstance err "TypeError" = true
  ∧ make_response endpoint PyNone = Raise err
  ∧ make_response endpoint (PyTuple [PyNone; second]) = Raise err
  ∧ make_response endpoint (PyTuple [PyNone; second; third]) = Raise err.
Proof.
  simpl. split; [reflexivity|]. split; [reflexivity|]. split; [|reflexivity].
  unfold make_response, unpack_tuple. by destruct (is_headers_shape second).
Qed.

Section Hooks.
Context {A : Type}.
Implicit Types (funcs : list (callable A unit)) (w : world).

Lemma add_events_nil w : add_events w [] = w.
Proof. destruct w. unfold add_events. simpl. by rewrite app_nil_r. Qed.

Lemma add_events_app w evs evs' :
  add_events (add_events w evs) evs' = add_events w (evs ++ evs').
Proof. unfold add_events. simpl. by rewrite <- app_assoc. Qed.

Lemma add_event_events w ev : add_event w ev = add_events w [ev].
Proof. reflexivity. Qed.

Lemma invoke_run {B} (f : callable A B) describe a w :
  invoke f describe a w =
    (fn_call f a, add_events w [EvCall (fn_name f) (describe a)]).
Proof. reflexivity. Qed.

(** A loop over hooks that all return calls each of them in order. *)
Lemma for_each_invoke_run funcs (describe : A → call_arg) (a : A) w :
  Forall never_raises funcs →
  for_each funcs (fun func => invoke func describe a) w =
    (Return tt, add_events w (call_events funcs (describe a))).
Proof.
  intros Hall. revert w. induction Hall as [|h rest Hh _ IH]; intros w.
  - simpl. unfold ret. by rewrite add_events_nil.
  - cbn [for_each]. unfold bind at 1. rewrite invoke_run.
    specialize (Hh a). destruct (fn_call h a) as [b|ex]; [|discriminate].
    rewrite IH, add_events_app. reflexivity.
Qed.
End Hooks.

Section AfterRequest.
Implicit Types (funcs : list (callable Response Response)) (w : world).

Lemma run_after_run funcs response w :
  Forall never_raises funcs →
  run_after funcs response w =
    (Return (fold_left (fun r h => apply_hook h r) funcs response),
     add_events w (after_events funcs response)).
Proof.
  intros Hall. revert response w.
  induction Hall as [|h rest Hh _ IH]; intros response w.
  - simpl. unfold ret. by rewrite add_events_nil.
  - cbn [run_after fold_left after_events]. unfold bind. rewrite invoke_run.
    specialize (Hh response).
    destruct (fn_call h response) as [r'|ex] eqn:Hcall; [|discriminate].
    assert (Happly : apply_hook h response = r')
      by (unfold apply_hook; by rewrite Hcall).
    rewrite Happly, IH, add_events_app. reflexivity.
Qed.

(** The chain that [process_response] iterates over. *)
Lemma after_request_chain_groups (a : Flask) (ctx : RequestContext) :
  after_request_chain a ctx =
    _after_request_functions ctx
    ++ rev (scoped_hooks (after_request_funcs a) (blueprint ctx))
    ++ rev (global_hooks (after_request_funcs a)).
Proof.
  unfold after_request_chain, scoped_hooks, global_hooks.
  destruct (blueprint ctx) as [b|]; simpl.
  - destruct (after_request_funcs a !! Some b) as [l|];
      destruct (after_request_funcs a !! None) as [g|]; simpl;
      rewrite ?app_nil_r, <- ?app_assoc; reflexivity.
  - destruct (after_request_funcs a !! None) as [g|]; simpl;
      rewrite ?app_nil_r; reflexivity.
Qed.

(** Registration appends: the stored order is the registration order. *)
Lemma after_request_appends scope f (a : Flask) :
  default [] (after_request_funcs (after_request scope f a) !! scope)
  = default [] (after_request_funcs a !! scope) ++ [f].
Proof. unfold after_request, append_hook. simpl. by rewrite lookup_insert_eq. Qed.

Lemma after_this_request_appends f (ctx : RequestContext) :
  _after_request_functions (after_this_request f ctx)
  = _after_request_functions ctx ++ [f].
Proof. reflexivity. Qed.
End AfterRequest.

(** C3 as the code has it: the after-request hooks run in three groups,
    the hooks registered for this one request first and in their
    registration order, then the hooks of the blueprint in reverse
    registration order, then the hooks of the application in reverse
    registration order; each hook is called with the response that the
    one before it returned, and the last return value is the result
    (stated for hooks that return; the session is saved afterwards). *)
Theorem process_response_order (w : world) (response : Response) :
  let a := w_app w in
  let ctx := w_ctx w in
  let chain :=
    _after_request_functions ctx
    ++ rev (scoped_hooks (after_request_funcs a) (blueprint ctx))
    ++ rev (global_hooks (after_request_funcs a)) in
  let final := fold_left (fun r h => apply_hook h r) chain response in
  Forall never_raises chain →
  process_response response w =
    (Return final,
     add_events w (after_events chain response
                   ++ if null_session ctx then [] else [EvSaveSession final])).
Proof.
  intros a ctx chain final Hall.
  unfold process_response, bind, get_app, get_ctx.
  fold a ctx. rewrite after_request_chain_groups. fold chain.
  rewrite run_after_run by exact Hall. fold final. cbn [w_ctx add_events].
  fold ctx. destruct (null_session ctx); simpl.
  - unfold ret. by rewrite app_nil_r.
  - unfold ret, add_events. simpl. by rewrite <- app_assoc.
Qed.

Section Teardown.
Lemma teardown_chain_groups (a : Flask) (ctx : RequestContext) :
  teardown_chain a ctx =
    rev (global_hooks (teardown_request_funcs a))
    ++ rev (scoped_hooks (teardown_request_funcs a) (blueprint ctx)).
Proof.
  unfold teardown_chain, scoped_hooks, global_hooks.
  destruct (blueprint ctx) as [b|]; simpl; [|by rewrite app_nil_r].
  destruct (teardown_request_funcs a !! Some b) as [l|]; simpl; [done|].
  by rewrite app_nil_r.
Qed.

Lemma teardown_request_appends scope f (a : Flask) :
  default [] (teardown_request_funcs (teardown_request scope f a) !! scope)
  = default [] (teardown_request_funcs a !! scope) ++ [f].
Proof. unfold teardown_request, append_hook. simpl. by rewrite lookup_insert_eq. Qed.
End Teardown.

(** C4 as the code has it: the teardown-request hooks of the
    application run first, in reverse registration order, then those of
    the blueprint, in reverse registration order; each is called with the
    exception (or [None]) and the tearing-down signal is sent after the
    last of them (stated for hooks that return). *)
Theorem do_teardown_request_order (w : world) (exc : option exc) :
  let a := w_app w in
  let ctx := w_ctx w in
  let chain :=
    rev (global_hooks (teardown_request_funcs a))
    ++ rev (scoped_hooks (teardown_request_funcs a) (blueprint ctx)) in
  Forall never_raises chain →
  do_teardown_request exc w =
    (Return tt,
     add_events w (call_events chain (ArgExc exc)
                   ++ [EvSignal "request_tearing_down" (ArgExc exc)])).
Proof.
  intros a ctx chain Hall.
  unfold do_teardown_request, bind, get_app, get_ctx.
  fold a ctx. rewrite teardown_chain_groups. fold chain.
  rewrite for_each_invoke_run by exact Hall.
  rewrite emit_run, add_event_events, add_events_app. reflexivity.
Qed.

Section BeforeFirstRequest.
Implicit Types (w : world).

Lemma trigger_when_flag_set w :
  _got_first_request (w_app w) = true →
  try_trigger_before_first_request_functions w = (Return tt, w).
Proof.
  intros Hflag. unfold try_trigger_before_first_request_functions, bind, get_app.
  by rewrite Hflag.
Qed.

Lemma trigger_when_flag_unset w :
  _got_first_request (w_app w) = false →
  Forall never_raises (before_first_request_funcs (w_app w)) →
  try_trigger_before_first_request_functions w =
    (Return tt,
     set_got_first_request
       (add_events w ([EvLock true]
                      ++ call_events (before_first_request_funcs (w_app w)) ArgNone
                      ++ [EvLock false]))).
Proof.
  intros Hflag Hall.
  unfold try_trigger_before_first_request_functions, bind at 1, get_app at 1.
  rewrite Hflag. unfold with_lock, bind at 1. rewrite emit_run.
  unfold try_finally, bind at 1, get_app at 1.
  cbn [w_app add_event]. rewrite Hflag.
  unfold bind at 1.
  rewrite (for_each_invoke_run _ (fun _ : unit => ArgNone) tt) by exact Hall.
  unfold bind, get_app, put_app, emit, set_got_first_request, add_events.
  simpl. rewrite <- !app_assoc. reflexivity.
Qed.

Lemma trigger_times_flag_set n w :
  _got_first_request (w_app w) = true → trigger_times n w = w.
Proof.
  intros Hflag. induction n as [|n IH]; [done|].
  simpl. by rewrite trigger_when_flag_set.
Qed.
End BeforeFirstRequest.

(** Hooks that return: once the flag is set a trigger does nothing;
    with the flag unset, one trigger takes the lock, calls every hook
    once in registration order, sets the flag and releases the lock; so
    over any number of triggers each hook has been called exactly
    once. *)
Theorem before_first_request_runs_once (w : world) :
  let funcs := before_first_request_funcs (w_app w) in
  let served :=
    set_got_first_request
      (add_events w ([EvLock true] ++ call_events funcs ArgNone ++ [EvLock false])) in
  (_got_first_request (w_app w) = true →
   try_trigger_before_first_request_functions w = (Return tt, w))
  ∧ (_got_first_request (w_app w) = false →
     Forall never_raises funcs →
     try_trigger_before_first_request_functions w = (Return tt, served)
     ∧ _got_first_request (w_app served) = true
     ∧ ∀ n, trigger_times (S n) w = served).
Proof.
  intros funcs served. split; [apply trigger_when_flag_set|].
  intros Hflag Hall.
  pose proof (trigger_when_flag_unset w Hflag Hall) as Hrun.
  fold funcs served in Hrun.
  split; [exact Hrun|]. split; [reflexivity|].
  intros n. cbn [trigger_times]. rewrite Hrun. cbn [snd].
  by apply trigger_times_flag_set.
Qed.

Section Fallback.
Implicit Types (w : world) (e : exc).

Lemma handle_exception_propagates e w :
  propagate_exceptions (w_app w) = true →
  handle_exception e w =
    (Raise e, add_events w [EvSignal "got_request_exception" (ArgExc (Some e))]).
Proof.
  intros Hprop. unfold handle_exception, bind, get_app. rewrite emit_run.
  cbn [add_event w_app]. by rewrite Hprop.
Qed.

(** [handle_exception] with propagation off, one case per path. *)
Lemma handle_exception_run e w :
  propagate_exceptions (w_app w) = false →
  ∃ spec',
    let w0 := set_spec (add_events w (reported e)) spec' in
    let server_error := server_error_for e in
    handle_exception e w =
      match resolution_order (error_handler_spec (w_app w))
                             (blueprint (w_ctx w)) server_error with
      | None => finalize_request (PyExc server_error) true w0
      | Some h =>
          let w1 := add_events w0 [EvCall (fn_name h) (ArgExc (Some server_error))] in
          match fn_call h server_error with
          | Return rv => finalize_request rv true w1
          | Raise ex => (Raise ex, w1)
          end
      end.
Proof.
  intros Hprop.
  destruct (find_error_handler_run (server_error_for e) (add_events w (reported e)))
    as (spec' & Hfind & _).
  exists spec'. cbn zeta.
  unfold handle_exception, bind at 1. rewrite emit_run.
  unfold bind at 1, get_app at 1. cbn [add_event w_app]. rewrite Hprop.
  unfold bind at 1, log_exception. rewrite emit_run.
  unfold bind at 1. fold (server_error_for e).
  change (add_event (add_event w (EvSignal "got_request_exception" (ArgExc (Some e))))
                    (EvLog "Exception on request" (Some e)))
    with (add_events (add_events w [EvSignal "got_request_exception" (ArgExc (Some e))])
                     [EvLog "Exception on request" (Some e)]).
  rewrite add_events_app. change ([_] ++ [_]) with (reported e).
  rewrite Hfind. cbn [add_events w_app w_ctx].
  destruct (resolution_order _ _ _) as [h|]; [|reflexivity].
  unfold bind at 1. rewrite invoke_run.
  by destruct (fn_call h (server_error_for e)).
Qed.

Lemma finalize_request_recovery_no_Exception rv w response :
  make_response (endpoint (w_ctx w)) rv = Return response →
  raises_no_Exception (fst (finalize_request rv true w)).
Proof.
  intros Hmake. rewrite finalize_request_run, Hmake.
  destruct (process_response response w) as [[r'|ex] w']; simpl; [done|].
  destruct (isinstance ex "Exception") eqn:Hexc; simpl; done.
Qed.

(** [wsgi_app] once the dispatch has raised an [Exception]: the
    fallback runs, and the context auto-pop runs after it on either
    outcome. *)
Lemma wsgi_app_after_raise w0 w e :
  (ctx_push ;;; full_dispatch_request) w0 = (Raise e, w) →
  isinstance e "Exception" = true →
  wsgi_app w0 =
    match handle_exception e w with
    | (Return r, w2) =>
        match ctx_auto_pop (Some e) (add_event w2 (EvStartResponse r)) with
        | (Return _, w3) => (Return r, w3)
        | (Raise e', w3) => (Raise e', w3)
        end
    | (Raise ex, w2) =>
        match ctx_auto_pop (Some e) w2 with
        | (Return _, w3) => (Raise ex, w3)
        | (Raise e', w3) => (Raise e', w3)
        end
    end.
Proof.
  intros Hraise Hexc. unfold wsgi_app, bind at 1, attempt. rewrite Hraise.
  unfold try_finally, should_ignore_error. rewrite Hexc. unfold bind at 1.
  destruct (handle_exception e w) as [[r|ex] w2]; [|reflexivity].
  unfold bind, ret. rewrite emit_run. reflexivity.
Qed.
End Fallback.

(** C10: a value that does not normalise makes [finalize_request] raise
    the [TypeError] of [make_response] on a normal pass and on an
    error-recovery pass alike, with nothing else done; so when the 500
    handler returns such a value with propagation off, [handle_exception]
    raises it, and [wsgi_app] raises as well. *)
Theorem normalisation_failure_propagates (w : world) (rv : pyval) (ex : exc) :
  make_response (endpoint (w_ctx w)) rv = Raise ex →
  (∀ from_error_handler, finalize_request rv from_error_handler w = (Raise ex, w))
  ∧ (∀ e,
        propagate_exceptions (w_app w) = false →
        offered w e = Return rv →
        fst (handle_exception e w) = Raise ex
        ∧ ∀ w0,
            (ctx_push ;;; full_dispatch_request) w0 = (Raise e, w) →
            isinstance e "Exception" = true →
            is_raise (fst (wsgi_app w0)) = true).
Proof.
  intros Hmake. split.
  - intros flag. by rewrite finalize_request_run, Hmake.
  - intros e Hprop Hoffered.
    assert (Hhandle : fst (handle_exception e w) = Raise ex).
    { destruct (handle_exception_run e w Hprop) as (spec' & Hrun).
      cbn zeta in Hrun. rewrite Hrun. unfold offered in Hoffered.
      destruct (resolution_order _ _ _) as [h|].
      - rewrite Hoffered, finalize_request_run. cbn [add_events set_spec w_ctx].
        by rewrite Hmake.
      - inversion Hoffered; subst rv.
        rewrite finalize_request_run. cbn [add_events set_spec w_ctx].
        by rewrite Hmake. }
    split; [exact Hhandle|].
    intros w0 Hraise Hexc. rewrite (wsgi_app_after_raise w0 w e Hraise Hexc).
    destruct (handle_exception e w) as [[r|ex'] w2]; [discriminate|].
    by destruct (ctx_auto_pop (Some e) w2) as [[[]|e'] w3].
Qed.

Section TraceGrows.
Implicit Types (w : world).

(** The after-request chain, [process_response] and [finalize_request]
    only add events to the world. *)
Lemma run_after_extends funcs response w :
  ∃ evs, snd (run_after funcs response w) = add_events w evs.
Proof.
  revert response w. induction funcs as [|h rest IH]; intros response w.
  - exists []. simpl. by rewrite add_events_nil.
  - cbn [run_after]. unfold bind. rewrite invoke_run.
    destruct (fn_call h response) as [r'|ex].
    + destruct (IH r' (add_events w [EvCall (fn_name h) (ArgResponse response)]))
        as (evs & Hevs).
      eexists. rewrite Hevs, add_events_app. reflexivity.
    + by eexists.
Qed.

Lemma process_response_extends response w :
  ∃ evs, snd (process_response response w) = add_events w evs.
Proof.
  unfold process_response, bind, get_app, get_ctx, ret.
  destruct (run_after_extends (after_request_chain (w_app w) (w_ctx w)) response w)
    as (evs & Hevs).
  destruct (run_after (after_request_chain (w_app w) (w_ctx w)) response w)
    as [[r'|ex] w'] eqn:Hrun; cbn [snd] in Hevs; subst w'.
  - destruct (null_session (w_ctx w)); cbn [negb].
    + by exists evs.
    + exists (evs ++ [EvSaveSession r']). rewrite emit_run.
      cbn [snd]. by rewrite add_event_events, add_events_app.
  - by exists evs.
Qed.

Lemma finalize_request_extends rv from_error_handler w :
  ∃ evs, snd (finalize_request rv from_error_handler w) = add_events w evs.
Proof.
  rewrite finalize_request_run.
  destruct (make_response (endpoint (w_ctx w)) rv) as [response|ex].
  - destruct (process_response_extends response w) as (evs & Hevs).
    destruct (process_response response w) as [[r'|ex] w'];
      cbn [snd] in Hevs; subst w'.
    + eexists. cbn [snd]. by rewrite add_event_events, add_events_app.
    + destruct (isinstance ex "Exception" && from_error_handler).
      * eexists. cbn [snd]. by rewrite add_event_events, add_events_app.
      * by exists evs.
  - exists []. cbn [snd]. by rewrite add_events_nil.
Qed.
End TraceGrows.

(** C2 as the code has it: with propagation off, [handle_exception]
    sends the signal and logs the original exception, builds the 500
    object with the original as [original_exception] and offers it once
    to the handler that the lookup finds for it, on every path.  Without
    such a handler the 500 object normalises to a response with status
    500.  When what is offered (the 500 object, or the value the handler
    returns) normalises, [handle_exception] is the error-recovery
    finalisation of that value and raises no [Exception]; in [wsgi_app]
    the context auto-pop then runs with the original exception after the
    response has been started.  When the handler raises, or returns a
    value that [make_response] rejects, that exception leaves
    [handle_exception], and [wsgi_app] raises it after the auto-pop has
    run, unless the auto-pop raises an exception of its own, which then
    takes its place. *)
Theorem handle_exception_fallback (w : world) (e : exc) :
  propagate_exceptions (w_app w) = false →
  let server_error := server_error_for e in
  original_exception server_error = Some e
  ∧ isinstance server_error "InternalServerError" = true
  ∧ cls_code (exc_type server_error) = Some 500
  ∧ (resolution_order (error_handler_spec (w_app w)) (blueprint (w_ctx w))
                      server_error = None →
     ∃ response,
       offered w e = Return (PyExc server_error)
       ∧ make_response (endpoint (w_ctx w)) (PyExc server_error) = Return response
       ∧ Werkzeug.status_code response = 500)
  ∧ (∀ rv response,
        offered w e = Return rv →
        make_response (endpoint (w_ctx w)) rv = Return response →
        (∃ w1,
            handle_exception e w = finalize_request rv true w1
            ∧ w_ctx w1 = w_ctx w
            ∧ w_trace w1 = w_trace w ++ reported e ++ offer_events w e)
        ∧ raises_no_Exception (fst (handle_exception e w))
        ∧ ∀ w0 r w2,
            (ctx_push ;;; full_dispatch_request) w0 = (Raise e, w) →
            isinstance e "Exception" = true →
            handle_exception e w = (Return r, w2) →
            wsgi_app w0 =
              match ctx_auto_pop (Some e) (add_event w2 (EvStartResponse r)) with
              | (Return _, w3) => (Return r, w3)
              | (Raise e', w3) => (Raise e', w3)
              end)
  ∧ (∃ rest,
        w_trace (snd (handle_exception e w))
        = w_trace w ++ reported e ++ offer_events w e ++ rest)
  ∧ (∀ ex,
        offered w e = Raise ex
        ∨ (∃ rv, offered w e = Return rv
                 ∧ make_response (endpoint (w_ctx w)) rv = Raise ex) →
        fst (handle_exception e w) = Raise ex
        ∧ ∀ w0,
            (ctx_push ;;; full_dispatch_request) w0 = (Raise e, w) →
            isinstance e "Exception" = true →
            wsgi_app w0
            = after_auto_pop (Some e) (Raise ex) (snd (handle_exception e w))).
Proof.
  intros Hprop server_error.
  split; [reflexivity|]. split; [reflexivity|]. split; [reflexivity|].
  split; [|split; [|split]].
  - intros Hnone. eexists. unfold offered. fold server_error. rewrite Hnone.
    split; [reflexivity|]. split; [reflexivity|]. reflexivity.
  - intros rv response Hoffered Hmake.
    destruct (handle_exception_run e w Hprop) as (spec' & Hrun).
    cbn zeta in Hrun.
    assert (Hfin : ∃ w1,
               handle_exception e w = finalize_request rv true w1
               ∧ w_ctx w1 = w_ctx w
               ∧ w_trace w1 = w_trace w ++ reported e ++ offer_events w e).
    { unfold offered, offer_events in *.
      destruct (resolution_order _ _ _) as [h|].
      - rewrite Hoffered in Hrun. eexists. split; [exact Hrun|].
        split; [reflexivity|]. cbn [add_events set_spec w_trace].
        by rewrite <- app_assoc.
      - inversion Hoffered; subst rv. eexists. split; [exact Hrun|].
        split; [reflexivity|]. cbn [add_events set_spec w_trace].
        by rewrite app_nil_r. }
    split; [exact Hfin|].
    destruct Hfin as (w1 & Heq & Hctx & _). split.
    + rewrite Heq. apply (finalize_request_recovery_no_Exception rv w1 response).
      by rewrite Hctx.
    + intros w0 r w2 Hraise Hexc Hret.
      rewrite (wsgi_app_after_raise w0 w e Hraise Hexc), Hret. reflexivity.
  - destruct (handle_exception_run e w Hprop) as (spec' & Hrun).
    cbn zeta in Hrun. rewrite Hrun. unfold offer_events.
    destruct (resolution_order _ _ _) as [h|].
    + destruct (fn_call h (server_error_for e)) as [rv|ex].
      * destruct (finalize_request_extends rv true
                    (add_events (set_spec (add_events w (reported e)) spec')
                       [EvCall (fn_name h) (ArgExc (Some (server_error_for e)))]))
          as (evs & Hevs).
        exists evs. rewrite Hevs. cbn [add_events set_spec w_trace].
        by rewrite <- !app_assoc.
      * exists []. cbn [snd add_events set_spec w_trace].
        by rewrite app_nil_r, <- !app_assoc.
    + destruct (finalize_request_extends (PyExc (server_error_for e)) true
                  (set_spec (add_events w (reported e)) spec')) as (evs & Hevs).
      exists evs. rewrite Hevs. cbn [add_events set_spec w_trace].
      by rewrite <- !app_assoc.
  - intros ex Hfails.
    assert (Hhandle : fst (handle_exception e w) = Raise ex).
    { destruct (handle_exception_run e w Hprop) as (spec' & Hrun).
      cbn zeta in Hrun. rewrite Hrun. unfold offered in Hfails.
      destruct (resolution_order _ _ _) as [h|].
      - destruct Hfails as [Hraise | (rv & Hret & Hmake)].
        + by rewrite Hraise.
        + rewrite Hret, finalize_request_run. cbn [add_events set_spec w_ctx].
          by rewrite Hmake.
      - destruct Hfails as [[=] | (rv & [= <-] & Hmake)].
        rewrite finalize_request_run. cbn [add_events set_spec w_ctx].
        by rewrite Hmake. }
    split; [exact Hhandle|].
    intros w0 Hraise Hexc. rewrite (wsgi_app_after_raise w0 w e Hraise Hexc).
    destruct (handle_exception e w) as [[r|ex'] w2]; [discriminate|].
    cbn [fst snd] in *. by inversion Hhandle.
Qed.

(** * The properties at concrete inputs *)

Import Samples Scenarios.


(** With a 500 handler that returns [None], the unhandled [ValueError]
    of the view ends in a [TypeError] raised by the dispatch. *)
Lemma handle_exception_raises_counterexample :
  propagate_exceptions (w_app world_none500) = false
  ∧ fst (_find_error_handler boom world_none500) = Return None
  ∧ fst (handle_exception boom world_none500)
    = Raise (Builtins.TypeError (none_message "index"))
  ∧ fst (wsgi_app world_none500) = Raise (Builtins.TypeError (none_message "index")).
Proof. vm_compute. repeat split. Qed.

Lemma handle_exception_fallback_witness :
  propagate_exceptions (w_app world_unhandled) = false
  ∧ raises_no_Exception (fst (handle_exception boom world_unhandled)).
Proof.
  split; [reflexivity|].
  eapply (proj1 (proj2 (proj1 (proj2 (proj2 (proj2 (proj2
            (handle_exception_fallback world_unhandled boom eq_refl)))))
            (PyExc (server_error_for boom)) _ _ _))).
  Unshelve.
  - exact (Werkzeug.http_exception_response (server_error_for boom)).
  - reflexivity.
  - reflexivity.
Defined.

(** The hooks registered for this one request run in registration
    order, not in reverse. *)
Lemma process_response_request_scoped_counterexample :
  calls (w_trace (snd (process_response plain (world0 app0 ctx_after)))) = ["r1"; "r2"]
  ∧ calls (w_trace (snd (process_response plain (world0 app0 ctx_after)))) ≠ ["r2"; "r1"].
Proof. vm_compute. split; [reflexivity|discriminate]. Qed.

Lemma process_response_order_witness :
  calls (w_trace (snd (process_response plain world_after)))
  = ["r1"; "r2"; "b2"; "b1"; "h3"; "h2"; "h1"]
  ∧ fst (process_response plain world_after)
    = Return (mkResponse "r1r2b2b1h3h2h1" (StatusCode 200) []).
Proof.
  assert (Hall : Forall never_raises
                   (_after_request_functions (w_ctx world_after)
                    ++ rev (scoped_hooks (after_request_funcs (w_app world_after))
                                         (blueprint (w_ctx world_after)))
                    ++ rev (global_hooks (after_request_funcs (w_app world_after))))).
  { vm_compute. repeat constructor. }
  rewrite (process_response_order world_after plain Hall).
  vm_compute. split; reflexivity.
Defined.

(** The hooks of the application run before those of the blueprint. *)
Lemma do_teardown_request_scope_counterexample :
  calls (w_trace (snd (do_teardown_request None world_teardown)))
  = ["g2"; "g1"; "b2"; "b1"]
  ∧ calls (w_trace (snd (do_teardown_request None world_teardown)))
    ≠ ["b2"; "b1"; "g2"; "g1"].
Proof. vm_compute. split; [reflexivity|discriminate]. Qed.

Lemma do_teardown_request_order_witness :
  w_trace (snd (do_teardown_request (Some boom) world_teardown))
  = [EvCall "g2" (ArgExc (Some boom)); EvCall "g1" (ArgExc (Some boom));
     EvCall "b2" (ArgExc (Some boom)); EvCall "b1" (ArgExc (Some boom));
     EvSignal "request_tearing_down" (ArgExc (Some boom))].
Proof.
  assert (Hall : Forall never_raises
                   (rev (global_hooks (teardown_request_funcs (w_app world_teardown)))
                    ++ rev (scoped_hooks (teardown_request_funcs (w_app world_teardown))
                                         (blueprint (w_ctx world_teardown))))).
  { vm_compute. repeat constructor. }
  rewrite (do_teardown_request_order world_teardown (Some boom) Hall).
  vm_compute. reflexivity.
Defined.

Lemma finalize_request_suppresses_on_recovery_witness :
  is_raise (fst (finalize_request (PyStr "x") false world_after_raising)) = true
  ∧ fst (finalize_request (PyStr "x") true world_after_raising)
    = Return (mkResponse "x" (StatusCode 200) [Werkzeug.default_content_type]).
Proof.
  destruct (finalize_request_suppresses_on_recovery
              world_after_raising
              (add_events world_after_raising
                 [EvCall "bad" (ArgResponse
                    (mkResponse "x" (StatusCode 200) [Werkzeug.default_content_type]))])
              (PyStr "x")
              (mkResponse "x" (StatusCode 200) [Werkzeug.default_content_type])
              boom eq_refl eq_refl eq_refl) as [Hnormal Hrecovery].
  rewrite Hnormal, Hrecovery. split; reflexivity.
Defined.


(** A hook that raises leaves the flag unset, and the next trigger calls
    the hooks before it a second time. *)
Lemma before_first_request_runs_once_witness :
  _got_first_request (w_app (world0 app_first (ctx0 None))) = false
  ∧ calls (w_trace (trigger_times 3 (world0 app_first (ctx0 None)))) = ["f1"; "f2"].
Proof.
  split; [reflexivity|].
  assert (Hall : Forall never_raises
                   (before_first_request_funcs (w_app (world0 app_first (ctx0 None))))).
  { vm_compute. repeat constructor. }
  destruct (proj2 (before_first_request_runs_once (world0 app_first (ctx0 None)))
                  eq_refl Hall) as (_ & _ & Htimes).
  rewrite (Htimes 2%nat). vm_compute. reflexivity.
Defined.

Lemma normalisation_failure_propagates_witness :
  finalize_request PyNone true world_none500
  = (Raise (Builtins.TypeError (none_message "index")), world_none500)
  ∧ fst (handle_exception boom world_none500)
    = Raise (Builtins.TypeError (none_message "index")).
Proof.
  destruct (normalisation_failure_propagates
              world_none500 PyNone (Builtins.TypeError (none_message "index")) eq_refl)
    as [Hfinal Hhandle].
  split; [apply Hfinal|].
  apply (Hhandle boom); [reflexivity|]. vm_compute. reflexivity.
Defined.

(** * Further properties of the dispatch methods *)

Section UserException.
Implicit Types (w : world) (e : exc).

(** [handle_user_exception] past the HTTP branch, and
    [handle_http_exception] past its two guards: the lookup, then the
    handler or the fallback. *)
Lemma lookup_then_call e w (fallback : M pyval) :
  ∃ spec',
    (handler <- _find_error_handler e ;;
     match handler with
     | None => fallback
     | Some h => invoke h (fun x => ArgExc (Some x)) e
     end) w =
      match resolution_order (error_handler_spec (w_app w)) (blueprint (w_ctx w)) e with
      | None => fallback (set_spec w spec')
      | Some h =>
          (fn_call h e,
           add_events (set_spec w spec') [EvCall (fn_name h) (ArgExc (Some e))])
      end.
Proof.
  destruct (find_error_handler_run e w) as (spec' & Hrun & _).
  exists spec'. unfold bind at 1. rewrite Hrun.
  destruct (resolution_order _ _ _) as [h|]; [|reflexivity].
  by rewrite invoke_run.
Qed.
End UserException.

Section DispatchOfExceptions.
Implicit Types (w : world) (e : exc).

Lemma handle_user_exception_run e w :
  isinstance e "HTTPException" && negb (trap_http_exception (w_app w) e) = false →
  match resolution_order (error_handler_spec (w_app w)) (blueprint (w_ctx w)) e with
  | None =>
      fst (handle_user_exception e w) = Raise e
      ∧ w_trace (snd (handle_user_exception e w)) = w_trace w
  | Some h =>
      fst (handle_user_exception e w) = fn_call h e
      ∧ w_trace (snd (handle_user_exception e w))
        = w_trace w ++ [EvCall (fn_name h) (ArgExc (Some e))]
  end.
Proof.
  intros Hbranch.
  destruct (lookup_then_call e w (raise e)) as (spec' & Hrun).
  assert (Heq : handle_user_exception e w =
                (handler <- _find_error_handler e ;;
                 match handler with
                 | None => raise e
                 | Some h => invoke h (fun x => ArgExc (Some x)) e
                 end) w).
  { unfold handle_user_exception, bind at 1, get_app. by rewrite Hbranch. }
  rewrite Heq, Hrun.
  destruct (resolution_order _ _ _) as [h|]; split; reflexivity.
Qed.

Lemma handle_http_exception_run e w :
  cls_code (exc_type e) ≠ None →
  isinstance e "RoutingException" = false →
  match resolution_order (error_handler_spec (w_app w)) (blueprint (w_ctx w)) e with
  | None =>
      fst (handle_http_exception e w) = Return (PyExc e)
      ∧ w_trace (snd (handle_http_exception e w)) = w_trace w
  | Some h =>
      fst (handle_http_exception e w) = fn_call h e
      ∧ w_trace (snd (handle_http_exception e w))
        = w_trace w ++ [EvCall (fn_name h) (ArgExc (Some e))]
  end.
Proof.
  intros Hcode Hrouting.
  destruct (lookup_then_call e w (ret (PyExc e))) as (spec' & Hrun).
  assert (Heq : handle_http_exception e w =
                (handler <- _find_error_handler e ;;
                 match handler with
                 | None => ret (PyExc e)
                 | Some h => invoke h (fun x => ArgExc (Some x)) e
                 end) w).
  { unfold handle_http_exception.
    rewrite bool_decide_eq_false_2 by exact Hcode. by rewrite Hrouting. }
  rewrite Heq, Hrun.
  destruct (resolution_order _ _ _) as [h|]; split; reflexivity.
Qed.
End DispatchOfExceptions.

(** C5: [handle_http_exception] hands a [RoutingException] back as it
    is: the value returned is the exception itself and the world is
    untouched (no lookup in [error_handler_spec], no call of a user
    function), and [handle_user_exception] does the same for an
    HTTP-level routing exception that is not trapped.  When
    [trap_http_exception] holds for it, [handle_user_exception] does not
    go through [handle_http_exception] and its guard: the routing
    exception is looked up like any other exception, and the user
    handler that the lookup finds is called with it; what the handler
    returns or raises is the outcome. *)
Theorem routing_exception_dispatch (w : world) (e : exc) :
  isinstance e "RoutingException" = true →
  isinstance e "HTTPException" = true →
  handle_http_exception e w = (Return (PyExc e), w)
  ∧ (trap_http_exception (w_app w) e = false →
     handle_user_exception e w = (Return (PyExc e), w))
  ∧ (trap_http_exception (w_app w) e = true →
     ∀ h, resolution_order (error_handler_spec (w_app w)) (blueprint (w_ctx w)) e
          = Some h →
          fst (handle_user_exception e w) = fn_call h e
          ∧ w_trace (snd (handle_user_exception e w))
            = w_trace w ++ [EvCall (fn_name h) (ArgExc (Some e))]).
Proof.
  intros Hrouting His.
  assert (Hhttp : handle_http_exception e w = (Return (PyExc e), w)).
  { unfold handle_http_exception. rewrite Hrouting.
    by destruct (bool_decide (cls_code (exc_type e) = None)). }
  split; [exact Hhttp|]. split.
  - intros Htrap. unfold handle_user_exception, bind, get_app.
    by rewrite His, Htrap.
  - intros Htrap h Hfound.
    assert (Hbranch : isinstance e "HTTPException"
                      && negb (trap_http_exception (w_app w) e) = false).
    { by rewrite His, Htrap. }
    pose proof (handle_user_exception_run e w Hbranch) as Hrun.
    by rewrite Hfound in Hrun.
Qed.

(** X1: for an exception that is not routed to [handle_http_exception],
    [handle_user_exception] re-raises the very exception when the lookup
    finds no handler, calling nothing; when it finds one, the handler is
    called once with the exception and what it returns or raises is the
    outcome. *)
Theorem handle_user_exception_outcome (w : world) (e : exc) :
  isinstance e "HTTPException" && negb (trap_http_exception (w_app w) e) = false →
  match resolution_order (error_handler_spec (w_app w)) (blueprint (w_ctx w)) e with
  | None =>
      fst (handle_user_exception e w) = Raise e
      ∧ w_trace (snd (handle_user_exception e w)) = w_trace w
  | Some h =>
      fst (handle_user_exception e w) = fn_call h e
      ∧ w_trace (snd (handle_user_exception e w))
        = w_trace w ++ [EvCall (fn_name h) (ArgExc (Some e))]
  end.
Proof. apply handle_user_exception_run. Qed.

Lemma handle_user_exception_outcome_witness :
  fst (handle_user_exception boom world_both) = Return (PyStr "from bp")
  ∧ w_trace (snd (handle_user_exception boom world_both))
    = [EvCall "hb" (ArgExc (Some boom))].
Proof.
  pose proof (handle_user_exception_outcome world_both boom eq_refl) as H.
  exact H.
Defined.

(** X2: [handle_http_exception] returns an exception without a code
    (a proxy exception) as it is, whatever handlers are registered; for an
    exception with a code that is no routing exception it returns the
    exception itself when the lookup finds no handler, and otherwise
    calls the handler found once with the exception. *)
Theorem handle_http_exception_outcome (w : world) (e : exc) :
  (cls_code (exc_type e) = None →
   handle_http_exception e w = (Return (PyExc e), w))
  ∧ (cls_code (exc_type e) ≠ None →
     isinstance e "RoutingException" = false →
     match resolution_order (error_handler_spec (w_app w)) (blueprint (w_ctx w)) e with
     | None =>
         fst (handle_http_exception e w) = Return (PyExc e)
         ∧ w_trace (snd (handle_http_exception e w)) = w_trace w
     | Some h =>
         fst (handle_http_exception e w) = fn_call h e
         ∧ w_trace (snd (handle_http_exception e w))
           = w_trace w ++ [EvCall (fn_name h) (ArgExc (Some e))]
     end).
Proof.
  split; [|apply handle_http_exception_run].
  intros Hcode. unfold handle_http_exception. by rewrite bool_decide_eq_true_2.
Qed.

(** X3: with [TRAP_HTTP_EXCEPTIONS] set, an HTTP exception is handled
    like any other exception: without a handler it is re-raised instead
    of being returned as the response; with the trap settings off (and
    outside debug mode) the same exception is returned as the response
    value. *)
Theorem trapped_http_exception_is_raised (w : world) (e : exc) :
  isinstance e "HTTPException" = true →
  cls_code (exc_type e) ≠ None →
  isinstance e "RoutingException" = false →
  resolution_order (error_handler_spec (w_app w)) (blueprint (w_ctx w)) e = None →
  (TRAP_HTTP_EXCEPTIONS (w_app w) = true →
   fst (handle_user_exception e w) = Raise e)
  ∧ (TRAP_HTTP_EXCEPTIONS (w_app w) = false →
     TRAP_BAD_REQUEST_ERRORS (w_app w) = Some false
     ∨ (TRAP_BAD_REQUEST_ERRORS (w_app w) = None ∧ debug (w_app w) = false) →
     fst (handle_user_exception e w) = Return (PyExc e)).
Proof.
  intros Hhttp Hcode Hrouting Hnone. split.
  - intros Htrap.
    pose proof (handle_user_exception_run e w) as Hout.
    rewrite Hnone in Hout. apply Hout.
    unfold trap_http_exception. by rewrite Hhttp, Htrap.
  - intros Htrap Hbad.
    assert (Huntrapped : trap_http_exception (w_app w) e = false).
    { unfold trap_http_exception. rewrite Htrap.
      destruct Hbad as [-> | [-> ->]]; reflexivity. }
    unfold handle_user_exception, bind at 1, get_app.
    rewrite Hhttp, Huntrapped. cbn [negb andb].
    pose proof (handle_http_exception_run e w Hcode Hrouting) as Hout.
    rewrite Hnone in Hout. apply Hout.
Qed.

Import Cases.

Lemma routing_exception_dispatch_witness :
  trap_http_exception app_trap_catch_all redirect = true
  ∧ fst (handle_user_exception redirect (world0 app_trap_catch_all (ctx0 None)))
    = Return (PyStr "caught")
  ∧ w_trace (snd (handle_user_exception redirect (world0 app_trap_catch_all (ctx0 None))))
    = [EvCall "catch_all" (ArgExc (Some redirect))]
  ∧ calls (w_trace (snd (full_dispatch_request
                           (world0 app_trap_catch_all (ctx_redirect "GET")))))
    = ["catch_all"].
Proof.
  split; [reflexivity|].
  destruct (proj2 (proj2 (routing_exception_dispatch
                            (world0 app_trap_catch_all (ctx0 None)) redirect
                            eq_refl eq_refl))
                  eq_refl (on_error "catch_all" "caught")) as [Hout Htrace].
  { vm_compute. reflexivity. }
  split; [exact Hout|]. split; [exact Htrace|].
  vm_compute. reflexivity.
Defined.

Lemma handle_http_exception_outcome_witness :
  fst (handle_http_exception not_found (world0 app0 (ctx0 None)))
  = Return (PyExc not_found)
  ∧ w_trace (snd (handle_http_exception not_found (world0 app0 (ctx0 None)))) = [].
Proof.
  assert (Hcode : cls_code (exc_type not_found) ≠ None) by discriminate.
  exact (proj2 (handle_http_exception_outcome (world0 app0 (ctx0 None)) not_found)
               Hcode eq_refl).
Defined.

Lemma trapped_http_exception_is_raised_witness :
  fst (handle_user_exception not_found (world0 app_trap (ctx0 None))) = Raise not_found.
Proof.
  assert (Hcode : cls_code (exc_type not_found) ≠ None) by discriminate.
  apply (proj1 (trapped_http_exception_is_raised
                  (world0 app_trap (ctx0 None)) not_found eq_refl Hcode eq_refl eq_refl)).
  reflexivity.
Defined.

Section Loops.
Context {A : Type}.
Implicit Types (pre post : list (callable A unit)) (w : world).

(** A loop over hooks stops at the first one that raises. *)
Lemma for_each_invoke_raises pre (h : callable A unit) post
      (describe : A → call_arg) (a : A) (ex : exc) w :
  Forall never_raises pre →
  fn_call h a = Raise ex →
  for_each (pre ++ h :: post) (fun func => invoke func describe a) w =
    (Raise ex, add_events w (call_events (pre ++ [h]) (describe a))).
Proof.
  intros Hpre Hh. revert w. induction Hpre as [|f rest Hf _ IH]; intros w.
  - cbn [app for_each]. unfold bind at 1. rewrite invoke_run, Hh. reflexivity.
  - cbn [app for_each]. unfold bind at 1. rewrite invoke_run.
    specialize (Hf a). destruct (fn_call f a) as [[]|ex']; [|discriminate].
    rewrite IH, add_events_app. reflexivity.
Qed.
End Loops.

Section FirstRequestRaising.
Implicit Types (w : world) (pre post : list (callable unit unit)).

(** A trigger in which the hook [h] raises. *)
Lemma trigger_when_hook_raises w pre (h : callable unit unit) post ex :
  _got_first_request (w_app w) = false →
  before_first_request_funcs (w_app w) = pre ++ h :: post →
  Forall never_raises pre →
  fn_call h tt = Raise ex →
  try_trigger_before_first_request_functions w =
    (Raise ex,
     add_events w ([EvLock true] ++ call_events (pre ++ [h]) ArgNone ++ [EvLock false])).
Proof.
  intros Hflag Hfuncs Hpre Hh.
  unfold try_trigger_before_first_request_functions, bind at 1, get_app at 1.
  rewrite Hflag. unfold with_lock, bind at 1. rewrite emit_run.
  unfold try_finally, bind at 1, get_app at 1.
  cbn [w_app add_event]. rewrite Hflag, Hfuncs.
  unfold bind at 1.
  rewrite (for_each_invoke_raises pre h post (fun _ : unit => ArgNone) tt ex _ Hpre Hh).
  unfold emit, add_events. simpl. rewrite <- !app_assoc. reflexivity.
Qed.

Lemma trigger_times_succ n w :
  trigger_times (S n) w
  = snd (try_trigger_before_first_request_functions (trigger_times n w)).
Proof.
  revert w. induction n as [|n IH]; intros w; [reflexivity|].
  change (trigger_times (S (S n)) w)
    with (trigger_times (S n) (snd (try_trigger_before_first_request_functions w))).
  by rewrite IH.
Qed.
End FirstRequestRaising.

(** C9: a before-first-request hook that raises.  With the flag unset
    the trigger takes the lock, calls the hooks in registration order up
    to the one that raises, releases the lock and raises that exception;
    the assignment of the flag comes after the loop and is not reached,
    so the flag stays unset.  The next trigger therefore does the same
    again: after [n] triggers the hooks registered before the raising
    one have each been called [n] times. *)
Theorem before_first_request_reruns_after_raise
    (w : world) (pre post : list (callable unit unit))
    (h : callable unit unit) (ex : exc) :
  _got_first_request (w_app w) = false →
  before_first_request_funcs (w_app w) = pre ++ h :: post →
  Forall never_raises pre →
  fn_call h tt = Raise ex →
  let one_trigger :=
    [EvLock true] ++ call_events (pre ++ [h]) ArgNone ++ [EvLock false] in
  ∀ n,
    trigger_times n w = add_events w (concat (replicate n one_trigger))
    ∧ _got_first_request (w_app (trigger_times n w)) = false
    ∧ try_trigger_before_first_request_functions (trigger_times n w)
      = (Raise ex, trigger_times (S n) w).
Proof.
  intros Hflag Hfuncs Hpre Hh one_trigger.
  assert (Htimes : ∀ n w',
             w_app w' = w_app w →
             trigger_times n w' = add_events w' (concat (replicate n one_trigger))).
  { induction n as [|n IH]; intros w' Happ.
    - cbn [replicate concat trigger_times]. by rewrite add_events_nil.
    - cbn [trigger_times].
      rewrite (trigger_when_hook_raises w' pre h post ex)
        by (rewrite ?Happ; assumption).
      cbn [snd]. fold one_trigger. rewrite IH by exact Happ.
      by rewrite add_events_app. }
  intros n. split; [by apply Htimes|].
  assert (Happ : w_app (trigger_times n w) = w_app w).
  { by rewrite Htimes. }
  split; [by rewrite Happ|].
  rewrite trigger_times_succ.
  rewrite (trigger_when_hook_raises (trigger_times n w) pre h post ex)
    by (rewrite ?Happ; assumption).
  reflexivity.
Qed.

Lemma before_first_request_reruns_after_raise_witness :
  calls (w_trace (trigger_times 2 (world0 app_first_raising (ctx0 None))))
  = ["f1"; "f2"; "f1"; "f2"]
  ∧ _got_first_request (w_app (trigger_times 2 (world0 app_first_raising (ctx0 None))))
    = false
  ∧ fst (try_trigger_before_first_request_functions
           (trigger_times 2 (world0 app_first_raising (ctx0 None))))
    = Raise boom.
Proof.
  assert (Hpre : Forall (never_raises (A:=unit) (B:=unit))
                        [Callable "f1" (fun _ => Return tt)]).
  { repeat constructor. }
  destruct (before_first_request_reruns_after_raise
              (world0 app_first_raising (ctx0 None))
              [Callable "f1" (fun _ => Return tt)] []
              (Callable "f2" (fun _ => Raise boom)) boom
              eq_refl eq_refl Hpre eq_refl 2%nat) as (Htimes & Hflag & Hnext).
  split; [|split].
  - rewrite Htimes. vm_compute. reflexivity.
  - exact Hflag.
  - by rewrite Hnext.
Defined.

Section BeforeRequest.
Implicit Types (pre post : list (callable unit pyval)) (w : world).

Lemma run_before_all_None funcs w :
  Forall returns_None funcs →
  run_before funcs w = (Return PyNone, add_events w (call_events funcs ArgNone)).
Proof.
  intros Hall. revert w. induction Hall as [|f rest Hf _ IH]; intros w.
  - simpl. unfold ret. by rewrite add_events_nil.
  - cbn [run_before]. unfold bind at 1. rewrite invoke_run.
    unfold returns_None in Hf. rewrite Hf, IH, add_events_app. reflexivity.
Qed.

Lemma run_before_short_circuit pre h post rv w :
  Forall returns_None pre →
  fn_call h tt = Return rv → rv ≠ PyNone →
  run_before (pre ++ h :: post) w =
    (Return rv, add_events w (call_events (pre ++ [h]) ArgNone)).
Proof.
  intros Hpre Hh Hrv. revert w. induction Hpre as [|f rest Hf _ IH]; intros w.
  - cbn [app run_before]. unfold bind at 1. rewrite invoke_run, Hh.
    by destruct rv.
  - cbn [app run_before]. unfold bind at 1. rewrite invoke_run.
    unfold returns_None in Hf. rewrite Hf, IH, add_events_app. reflexivity.
Qed.

Lemma run_before_raises pre h post ex w :
  Forall returns_None pre →
  fn_call h tt = Raise ex →
  run_before (pre ++ h :: post) w =
    (Raise ex, add_events w (call_events (pre ++ [h]) ArgNone)).
Proof.
  intros Hpre Hh. revert w. induction Hpre as [|f rest Hf _ IH]; intros w.
  - cbn [app run_before]. unfold bind at 1. rewrite invoke_run, Hh. reflexivity.
  - cbn [app run_before]. unfold bind at 1. rewrite invoke_run.
    unfold returns_None in Hf. rewrite Hf, IH, add_events_app. reflexivity.
Qed.
End BeforeRequest.

(** X4: [preprocess_request] calls the URL value preprocessors, those
    of the application before those of the blueprint, then the
    before-request hooks in the same order.  The first before-request
    hook that returns something other than [None] ends the loop: its
    value is the result and the hooks after it are not called.  When
    every hook returns [None], all are called and the result is [None]. *)
Theorem preprocess_request_short_circuit (w : world) :
  let bp := blueprint (w_ctx w) in
  let url_funcs := global_hooks (url_value_preprocessors (w_app w))
                   ++ scoped_hooks (url_value_preprocessors (w_app w)) bp in
  let before := global_hooks (before_request_funcs (w_app w))
                ++ scoped_hooks (before_request_funcs (w_app w)) bp in
  Forall never_raises url_funcs →
  (Forall returns_None before →
   preprocess_request w =
     (Return PyNone,
      add_events w (call_events url_funcs ArgNone ++ call_events before ArgNone)))
  ∧ (∀ pre h post rv,
        before = pre ++ h :: post →
        Forall returns_None pre →
        fn_call h tt = Return rv → rv ≠ PyNone →
        preprocess_request w =
          (Return rv,
           add_events w (call_events url_funcs ArgNone
                         ++ call_events (pre ++ [h]) ArgNone))).
Proof.
  intros bp url_funcs before Hurl.
  assert (Hchain : ∀ {A} (d : gmap (option string) (list A)),
             global_then_blueprint d bp = global_hooks d ++ scoped_hooks d bp).
  { intros A d. unfold global_then_blueprint, global_hooks, scoped_hooks.
    destruct bp as [b|]; [|by rewrite app_nil_r].
    destruct (d !! Some b); [done|]. by rewrite app_nil_r. }
  assert (Hrun : preprocess_request w =
                 run_before before (add_events w (call_events url_funcs ArgNone))).
  { unfold preprocess_request, bind, get_app, get_ctx. fold bp.
    rewrite !Hchain. fold url_funcs before.
    by rewrite (for_each_invoke_run _ (fun _ : unit => ArgNone) tt) by exact Hurl. }
  rewrite Hrun. split.
  - intros Hall. by rewrite run_before_all_None, add_events_app.
  - intros pre h post rv -> Hpre Hh Hrv.
    by rewrite (run_before_short_circuit pre h post rv), add_events_app.
Qed.

Lemma preprocess_request_short_circuit_witness :
  fst (preprocess_request (world0 app_before (ctx0 (Some "bp")))) = Return (PyStr "early")
  ∧ calls (w_trace (snd (preprocess_request (world0 app_before (ctx0 (Some "bp"))))))
    = ["u1"; "g1"; "b1"; "b2"].
Proof.
  assert (Hurl : Forall never_raises
                   (global_hooks (url_value_preprocessors app_before)
                    ++ scoped_hooks (url_value_preprocessors app_before) (Some "bp"))).
  { vm_compute. repeat constructor. }
  rewrite (proj2 (preprocess_request_short_circuit
                    (world0 app_before (ctx0 (Some "bp"))) Hurl)
                 [pass "g1"; pass "b1"] (answer "b2" "early") [pass "b3"]
                 (PyStr "early")).
  - vm_compute. split; reflexivity.
  - vm_compute. reflexivity.
  - repeat constructor.
  - reflexivity.
  - discriminate.
Defined.

(** X5: when routing recorded an exception, [dispatch_request] raises
    without calling the view function.  Outside debug mode, for anything
    but a [RequestRedirect], and for GET, HEAD and OPTIONS requests, the
    recorded exception itself is raised; in debug mode a
    [RequestRedirect] on any other method is replaced by
    [FormDataRoutingRedirect]. *)
Theorem dispatch_request_routing_exception (w : world) (e : exc) :
  routing_exception (w_ctx w) = Some e →
  let safe := bool_decide (method (w_ctx w) ∈ ["GET"; "HEAD"; "OPTIONS"]) in
  snd (dispatch_request w) = w
  ∧ (debug (w_app w) = false ∨ isinstance e "RequestRedirect" = false ∨ safe = true →
     fst (dispatch_request w) = Raise e)
  ∧ (debug (w_app w) = true → isinstance e "RequestRedirect" = true → safe = false →
     fst (dispatch_request w) = Raise FormDataRoutingRedirect).
Proof.
  intros Hrouting safe.
  assert (Hrun : dispatch_request w =
                 (if negb (debug (w_app w)) || negb (isinstance e "RequestRedirect") || safe
                  then Raise e else Raise FormDataRoutingRedirect, w)).
  { unfold dispatch_request, bind, get_ctx, raise_routing_exception, bind, get_app.
    rewrite Hrouting. fold safe.
    by destruct (negb (debug (w_app w)) || negb (isinstance e "RequestRedirect") || safe). }
  rewrite Hrun. cbn [fst snd]. split; [reflexivity|]. split.
  - intros [-> | [-> | ->]]; [reflexivity| |].
    + by rewrite orb_true_r.
    + by rewrite orb_true_r.
  - intros -> -> ->. reflexivity.
Qed.

Lemma dispatch_request_routing_exception_witness :
  dispatch_request (world0 app_debug (ctx_redirect "POST"))
  = (Raise FormDataRoutingRedirect, world0 app_debug (ctx_redirect "POST"))
  ∧ fst (dispatch_request (world0 app_debug (ctx_redirect "GET"))) = Raise redirect
  ∧ fst (dispatch_request (world0 app0 (ctx_redirect "POST"))) = Raise redirect.
Proof.
  destruct (dispatch_request_routing_exception
              (world0 app_debug (ctx_redirect "POST")) redirect eq_refl)
    as (Hworld & _ & Hdebug).
  destruct (dispatch_request_routing_exception
              (world0 app_debug (ctx_redirect "GET")) redirect eq_refl)
    as (_ & Hsafe & _).
  destruct (dispatch_request_routing_exception
              (world0 app0 (ctx_redirect "POST")) redirect eq_refl)
    as (_ & Hprod & _).
  split; [|split].
  - rewrite (surjective_pairing (dispatch_request _)), Hworld, Hdebug; reflexivity.
  - apply Hsafe. right. right. reflexivity.
  - apply Hprod. left. reflexivity.
Defined.

(** X6: without a routing exception, an OPTIONS request to a rule that
    provides automatic options is answered without calling the view
    function, by a response whose [Allow] header lists the methods the
    URL adapter allows; every other request calls the view function once
    and its outcome is the outcome of the dispatch. *)
Theorem dispatch_request_automatic_options (w : world) :
  routing_exception (w_ctx w) = None →
  (provide_automatic_options (w_ctx w) = true →
   method (w_ctx w) = "OPTIONS" →
   ∃ r, dispatch_request w = (Return (PyResponse r), w)
        ∧ In ("Allow", Json.join ", " (allowed_methods (w_ctx w))) (headers r))
  ∧ (provide_automatic_options (w_ctx w) = false ∨ method (w_ctx w) ≠ "OPTIONS" →
     dispatch_request w =
       (fn_call (view_function (w_ctx w)) tt,
        add_events w [EvCall (fn_name (view_function (w_ctx w))) ArgNone])).
Proof.
  intros Hrouting.
  assert (Hrun : dispatch_request w =
                 if provide_automatic_options (w_ctx w)
                    && String.eqb (method (w_ctx w)) "OPTIONS"
                 then make_default_options_response w
                 else invoke (view_function (w_ctx w)) (fun _ => ArgNone) tt w).
  { unfold dispatch_request, bind at 1, get_ctx at 1. rewrite Hrouting.
    by destruct (provide_automatic_options (w_ctx w)
                 && String.eqb (method (w_ctx w)) "OPTIONS"). }
  rewrite Hrun. split.
  - intros Hauto Hmethod. rewrite Hauto, Hmethod. cbn [andb].
    eexists. split; [reflexivity|]. cbn [headers]. right. left. reflexivity.
  - intros Hnot.
    assert (Hcond : provide_automatic_options (w_ctx w)
                    && String.eqb (method (w_ctx w)) "OPTIONS" = false).
    { destruct Hnot as [-> | Hne]; [reflexivity|].
      apply andb_false_iff. right. by apply String.eqb_neq. }
    rewrite Hcond. by rewrite invoke_run.
Qed.

Lemma dispatch_request_automatic_options_witness :
  w_trace (snd (dispatch_request (world0 app0 ctx_options))) = []
  ∧ ∃ r, fst (dispatch_request (world0 app0 ctx_options)) = Return (PyResponse r)
         ∧ In ("Allow", "GET, HEAD, OPTIONS") (headers r).
Proof.
  destruct (proj1 (dispatch_request_automatic_options (world0 app0 ctx_options) eq_refl)
                  eq_refl eq_refl) as (r & Hrun & Hallow).
  rewrite Hrun. split; [reflexivity|]. exists r. split; [reflexivity|exact Hallow].
Defined.

(** X7: with propagation on, [handle_exception] sends the
    got-request-exception signal and re-raises the exception it was
    given: nothing is logged and no handler is looked up or called.
    Propagation is on when [PROPAGATE_EXCEPTIONS] is set to true, and,
    when it is not set at all, in testing or debug mode. *)
Theorem handle_exception_reraises_when_propagating (w : world) (e : exc) :
  PROPAGATE_EXCEPTIONS (w_app w) = Some true
  ∨ (PROPAGATE_EXCEPTIONS (w_app w) = None
     ∧ (testing (w_app w) = true ∨ debug (w_app w) = true)) →
  handle_exception e w =
    (Raise e, add_events w [EvSignal "got_request_exception" (ArgExc (Some e))]).
Proof.
  intros Hconfig. apply handle_exception_propagates.
  unfold propagate_exceptions.
  destruct Hconfig as [-> | [-> [-> | ->]]]; [reflexivity|reflexivity|].
  by rewrite orb_true_r.
Qed.

Lemma handle_exception_reraises_when_propagating_witness :
  handle_exception boom (world0 app_debug (ctx0 None))
  = (Raise boom,
     add_events (world0 app_debug (ctx0 None))
                [EvSignal "got_request_exception" (ArgExc (Some boom))]).
Proof.
  apply handle_exception_reraises_when_propagating.
  right. split; [reflexivity|]. right. reflexivity.
Defined.

Section Wsgi.
Implicit Types (w : world).

(** [wsgi_app], one case per path through its [try] blocks. *)
Lemma wsgi_app_run w0 :
  wsgi_app w0 =
    match (ctx_push ;;; full_dispatch_request) w0 with
    | (Return r, w1) => after_auto_pop None (Return r) (add_event w1 (EvStartResponse r))
    | (Raise e, w1) =>
        if isinstance e "Exception" then
          match handle_exception e w1 with
          | (Return r, w2) =>
              after_auto_pop (Some e) (Return r) (add_event w2 (EvStartResponse r))
          | (Raise ex, w2) => after_auto_pop (Some e) (Raise ex) w2
          end
        else after_auto_pop (Some e) (Raise e) w1
    end.
Proof.
  unfold wsgi_app, bind at 1, attempt, after_auto_pop.
  destruct ((ctx_push ;;; full_dispatch_request) w0) as [[r|e] w1];
    unfold try_finally, should_ignore_error.
  - unfold bind, ret. rewrite emit_run.
    by destruct (ctx_auto_pop None (add_event w1 (EvStartResponse r))) as [[[]|e'] w3].
  - unfold bind at 1. destruct (isinstance e "Exception").
    + destruct (handle_exception e w1) as [[r|ex] w2].
      * unfold bind, ret. rewrite emit_run.
        by destruct (ctx_auto_pop (Some e) (add_event w2 (EvStartResponse r)))
          as [[[]|e'] w3].
      * by destruct (ctx_auto_pop (Some e) w2) as [[[]|e'] w3].
    + unfold raise. by destruct (ctx_auto_pop (Some e) w1) as [[[]|e'] w3].
Qed.

Lemma after_auto_pop_world error o w :
  snd (after_auto_pop error o w) = snd (ctx_auto_pop error w).
Proof.
  unfold after_auto_pop. by destruct (ctx_auto_pop error w) as [[[]|e'] w3].
Qed.
End Wsgi.

(** X8: [wsgi_app] ends with the context auto-pop on every path, and
    passes it the exception that the dispatch raised ([None] when it
    raised none).  A dispatch that returns a response has that response
    started and returned.  An exception that is not an [Exception] (a
    [KeyboardInterrupt], say) is not given to [handle_exception]: no
    signal, no log record, no 500 response; it is raised again after the
    auto-pop. *)
Theorem wsgi_app_cleanup (w0 : world) :
  let first := (ctx_push ;;; full_dispatch_request) w0 in
  let error := match fst first with Raise e => Some e | Return _ => None end in
  (∃ w2, snd (wsgi_app w0) = snd (ctx_auto_pop error w2))
  ∧ (∀ r, fst first = Return r →
          wsgi_app w0 =
            after_auto_pop None (Return r) (add_event (snd first) (EvStartResponse r)))
  ∧ (∀ e, fst first = Raise e → isinstance e "Exception" = false →
          wsgi_app w0 = after_auto_pop (Some e) (Raise e) (snd first)).
Proof.
  intros first error. subst error. rewrite wsgi_app_run. fold first.
  destruct first as [[r|e] w1]; cbn [fst snd].
  - split; [|split].
    + eexists. apply after_auto_pop_world.
    + by intros r' [= <-].
    + intros e [=].
  - split; [|split].
    + destruct (isinstance e "Exception").
      * destruct (handle_exception e w1) as [[r|ex] w2];
          eexists; apply after_auto_pop_world.
      * eexists. apply after_auto_pop_world.
    + intros r [=].
    + intros e' [= <-] Hexc. by rewrite Hexc.
Qed.

Lemma wsgi_app_cleanup_witness :
  fst (wsgi_app (world0 app0 ctx_interrupted)) = Raise interrupt
  ∧ w_trace (snd (wsgi_app (world0 app0 ctx_interrupted)))
    = [EvPush; EvLock true; EvLock false; EvSignal "request_started" ArgNone;
       EvCall "index" ArgNone;
       EvSignal "request_tearing_down" (ArgExc (Some interrupt)); EvPop].
Proof.
  rewrite (proj2 (proj2 (wsgi_app_cleanup (world0 app0 ctx_interrupted)))
                 interrupt eq_refl eq_refl).
  vm_compute. split; reflexivity.
Defined.

(** X9: a tuple of any size other than 2 or 3 (the empty tuple, a
    1-tuple, a 4-tuple, ...) is rejected with the response-tuple
    [TypeError], whatever its elements are. *)
Theorem make_response_tuple_size (endpoint : string) (xs : list pyval) :
  length xs ≠ 2%nat → length xs ≠ 3%nat →
  make_response endpoint (PyTuple xs) = Raise (Builtins.TypeError invalid_tuple_message).
Proof.
  intros H2 H3.
  destruct xs as [|a [|b [|c [|d rest]]]]; simpl in *; try reflexivity; congruence.
Qed.

Lemma make_response_tuple_size_witness :
  make_response "index" (PyTuple [PyStr "only"])
  = Raise (Builtins.TypeError invalid_tuple_message).
Proof. apply make_response_tuple_size; simpl; lia. Defined.

(** X10: a tuple is unpacked once only: a body that is itself a tuple
    is rejected with the invalid-type [TypeError] naming [tuple], for a
    2-tuple and a 3-tuple alike; so are integers, lists and objects that
    are neither a response nor callable, and exception instances that are
    not HTTP exceptions. *)
Theorem make_response_rejects_unsupported (endpoint : string) :
  (∀ inner second,
      make_response endpoint (PyTuple [PyTuple inner; second])
      = Raise (Builtins.TypeError (invalid_type_message (PyTuple inner))))
  ∧ (∀ inner second third,
        make_response endpoint (PyTuple [PyTuple inner; second; third])
        = Raise (Builtins.TypeError (invalid_type_message (PyTuple inner))))
  ∧ (∀ n, make_response endpoint (PyInt n)
          = Raise (Builtins.TypeError (invalid_type_message (PyInt n))))
  ∧ (∀ xs, make_response endpoint (PyList xs)
           = Raise (Builtins.TypeError (invalid_type_message (PyList xs))))
  ∧ (∀ name, make_response endpoint (PyObject name)
             = Raise (Builtins.TypeError (invalid_type_message (PyObject name))))
  ∧ (∀ e, isinstance e "HTTPException" = false →
          make_response endpoint (PyExc e)
          = Raise (Builtins.TypeError (invalid_type_message (PyExc e)))).
Proof.
  split; [|split; [|split; [|split; [|split]]]]; try reflexivity.
  - intros inner second. unfold make_response, unpack_tuple.
    by destruct (is_headers_shape second).
  - intros e Hhttp. unfold make_response, unpack_tuple, build_response, coerce_body.
    cbn [obind Werkzeug.is_base_response Werkzeug.callable orb]. by rewrite Hhttp.
Qed.

Lemma make_response_rejects_unsupported_witness :
  make_response "index" (PyExc boom)
  = Raise (Builtins.TypeError (invalid_type_message (PyExc boom))).
Proof.
  apply (proj2 (proj2 (proj2 (proj2 (proj2 (make_response_rejects_unsupported "index")))))).
  reflexivity.
Defined.

(** X11: a WSGI callable is run to obtain the response.  When running
    it raises a [TypeError], a new [TypeError] is raised whose message
    is the original message followed by the invalid-type text; any other
    exception of the callable leaves [make_response] as it is. *)
Theorem make_response_callable (endpoint : string) :
  (∀ r, make_response endpoint (PyCallable (Return r)) = Return r)
  ∧ (∀ ex, isinstance ex "TypeError" = true →
           make_response endpoint (PyCallable (Raise ex))
           = Raise (Builtins.TypeError
                      (exc_message ex ++ newline
                       ++ invalid_type_message (PyCallable (Raise ex))))%string)
  ∧ (∀ ex, isinstance ex "TypeError" = false →
           make_response endpoint (PyCallable (Raise ex)) = Raise ex).
Proof.
  split; [|split].
  - reflexivity.
  - intros ex Hty. unfold make_response, unpack_tuple, build_response, coerce_body.
    cbn [obind Werkzeug.is_base_response Werkzeug.callable orb Werkzeug.force_type].
    by rewrite Hty.
  - intros ex Hty. unfold make_response, unpack_tuple, build_response, coerce_body.
    cbn [obind Werkzeug.is_base_response Werkzeug.callable orb Werkzeug.force_type].
    by rewrite Hty.
Qed.

Lemma make_response_callable_witness :
  make_response "index" (PyCallable (Raise boom)) = Raise boom.
Proof.
  apply (proj2 (proj2 (make_response_callable "index"))). reflexivity.
Defined.



Section AfterRequestRaising.
Implicit Types (pre post : list (callable Response Response)) (w : world).

Lemma run_after_raises pre h post response ex w :
  Forall never_raises pre →
  fn_call h (fold_left (fun r f => apply_hook f r) pre response) = Raise ex →
  run_after (pre ++ h :: post) response w =
    (Raise ex, add_events w (after_events (pre ++ [h]) response)).
Proof.
  intros Hpre. revert response w.
  induction Hpre as [|f rest Hf _ IH]; intros response w Hh.
  - cbn [app run_after after_events]. unfold bind. rewrite invoke_run.
    cbn [fold_left] in Hh. by rewrite Hh.
  - cbn [app run_after after_events fold_left] in *. unfold bind at 1.
    rewrite invoke_run. specialize (Hf response).
    destruct (fn_call f response) as [r'|ex'] eqn:Hcall; [|discriminate].
    assert (Happly : apply_hook f response = r')
      by (unfold apply_hook; by rewrite Hcall).
    rewrite Happly in *. rewrite (IH r' _ Hh), add_events_app. reflexivity.
Qed.
End AfterRequestRaising.

(** X13: when an after-request hook raises, [process_response] raises
    that exception at once: the hooks after it in the chain are not
    called and the session is not saved, even for a session that is not
    null. *)
Theorem process_response_stops_at_raise
    (w : world) (response : Response)
    (pre post : list (callable Response Response))
    (h : callable Response Response) (ex : exc) :
  _after_request_functions (w_ctx w)
  ++ rev (scoped_hooks (after_request_funcs (w_app w)) (blueprint (w_ctx w)))
  ++ rev (global_hooks (after_request_funcs (w_app w)))
  = pre ++ h :: post →
  Forall never_raises pre →
  fn_call h (fold_left (fun r f => apply_hook f r) pre response) = Raise ex →
  process_response response w =
    (Raise ex, add_events w (after_events (pre ++ [h]) response)).
Proof.
  intros Hchain Hpre Hh.
  unfold process_response, bind at 1, get_app, bind at 1, get_ctx, bind at 1.
  rewrite after_request_chain_groups, Hchain.
  by rewrite (run_after_raises pre h post response ex w Hpre Hh).
Qed.

Lemma process_response_stops_at_raise_witness :
  fst (process_response plain (world0 app_after_middle_raises ctx_session)) = Raise boom
  ∧ w_trace (snd (process_response plain (world0 app_after_middle_raises ctx_session)))
    = [EvCall "h3" (ArgResponse plain);
       EvCall "bad" (ArgResponse (mkResponse "h3" (StatusCode 200) []))].
Proof.
  rewrite (process_response_stops_at_raise
             (world0 app_after_middle_raises ctx_session) plain
             [tag "h3"] [tag "h1"] (Callable "bad" (fun _ => Raise boom)) boom).
  - split; reflexivity.
  - vm_compute. reflexivity.
  - repeat constructor.
  - reflexivity.
Defined.

(** X14: when a teardown-request hook raises, [do_teardown_request]
    raises that exception at once: the hooks after it are not called and
    the request-tearing-down signal is not sent. *)
Theorem do_teardown_request_stops_at_raise
    (w : world) (error : option exc)
    (pre post : list (callable (option exc) unit))
    (h : callable (option exc) unit) (ex : exc) :
  rev (global_hooks (teardown_request_funcs (w_app w)))
  ++ rev (scoped_hooks (teardown_request_funcs (w_app w)) (blueprint (w_ctx w)))
  = pre ++ h :: post →
  Forall never_raises pre →
  fn_call h error = Raise ex →
  do_teardown_request error w =
    (Raise ex, add_events w (call_events (pre ++ [h]) (ArgExc error))).
Proof.
  intros Hchain Hpre Hh.
  unfold do_teardown_request, bind at 1, get_app, bind at 1, get_ctx, bind at 1.
  rewrite teardown_chain_groups, Hchain.
  by rewrite (for_each_invoke_raises pre h post ArgExc error ex w Hpre Hh).
Qed.

Lemma do_teardown_request_stops_at_raise_witness :
  fst (do_teardown_request None (world0 app_teardown_raises (ctx0 None))) = Raise boom
  ∧ w_trace (snd (do_teardown_request None (world0 app_teardown_raises (ctx0 None))))
    = [EvCall "t3" (ArgExc None); EvCall "bad" (ArgExc None)].
Proof.
  rewrite (do_teardown_request_stops_at_raise
             (world0 app_teardown_raises (ctx0 None)) None
             [quiet "t3"] [quiet "t1"] (Callable "bad" (fun _ => Raise boom)) boom).
  - split; reflexivity.
  - vm_compute. reflexivity.
  - repeat constructor.
  - reflexivity.
Defined.

(** X15: when a before-first-request hook raises, the trigger raises
    that exception with the flag still unset and the lock released; the
    hooks after it have not been called. *)
Theorem before_first_request_raise_keeps_flag
    (w : world) (pre post : list (callable unit unit))
    (h : callable unit unit) (ex : exc) :
  _got_first_request (w_app w) = false →
  before_first_request_funcs (w_app w) = pre ++ h :: post →
  Forall never_raises pre →
  fn_call h tt = Raise ex →
  try_trigger_before_first_request_functions w =
    (Raise ex,
     add_events w ([EvLock true] ++ call_events (pre ++ [h]) ArgNone ++ [EvLock false]))
  ∧ _got_first_request
      (w_app (snd (try_trigger_before_first_request_functions w))) = false.
Proof.
  intros Hflag Hfuncs Hpre Hh.
  assert (Hrun : try_trigger_before_first_request_functions w =
                 (Raise ex,
                  add_events w ([EvLock true] ++ call_events (pre ++ [h]) ArgNone
                                ++ [EvLock false]))).
  { unfold try_trigger_before_first_request_functions, bind at 1, get_app at 1.
    rewrite Hflag. unfold with_lock, bind at 1. rewrite emit_run.
    unfold try_finally, bind at 1, get_app at 1.
    cbn [w_app add_event]. rewrite Hflag, Hfuncs.
    unfold bind at 1.
    rewrite (for_each_invoke_raises pre h post (fun _ : unit => ArgNone) tt ex _ Hpre Hh).
    unfold emit, add_events. simpl. rewrite <- !app_assoc. reflexivity. }
  rewrite Hrun. split; [reflexivity|exact Hflag].
Qed.

Lemma before_first_request_raise_keeps_flag_witness :
  fst (try_trigger_before_first_request_functions (world0 app_first_raising (ctx0 None)))
  = Raise boom
  ∧ w_trace (snd (try_trigger_before_first_request_functions
                    (world0 app_first_raising (ctx0 None))))
    = [EvLock true; EvCall "f1" ArgNone; EvCall "f2" ArgNone; EvLock false].
Proof.
  destruct (before_first_request_raise_keeps_flag
              (world0 app_first_raising (ctx0 None))
              [Callable "f1" (fun _ => Return tt)] []
              (Callable "f2" (fun _ => Raise boom)) boom
              eq_refl eq_refl) as [Hrun _].
  - repeat constructor.
  - reflexivity.
  - rewrite Hrun. split; reflexivity.
Defined.

Import Others.

(** X16: the teardown functions of the application context run in
    reverse registration order, each with the exception (or [None]), and
    the appcontext-tearing-down signal is sent after the last one; a
    function registered with [teardown_appcontext] while setup is open is
    therefore the first to run (stated for functions that return). *)
Theorem do_teardown_appcontext_order
    (a : Flask) (w : world) (error : option exc)
    (funcs : list (callable (option exc) unit)) (f : callable (option exc) unit) :
  _is_setup_finished a = false →
  Forall never_raises funcs → never_raises f →
  do_teardown_appcontext funcs error w =
    (Return tt,
     add_events w (call_events (rev funcs) (ArgExc error)
                   ++ [EvSignal "appcontext_tearing_down" (ArgExc error)]))
  ∧ teardown_appcontext a f funcs = (Return tt, funcs ++ [f])
  ∧ do_teardown_appcontext (snd (teardown_appcontext a f funcs)) error w =
      (Return tt,
       add_events w (EvCall (fn_name f) (ArgExc error)
                     :: call_events (rev funcs) (ArgExc error)
                     ++ [EvSignal "appcontext_tearing_down" (ArgExc error)])).
Proof.
  intros Hsetup Hfuncs Hf.
  assert (Hrun : ∀ l, Forall never_raises l →
            do_teardown_appcontext l error w =
              (Return tt,
               add_events w (call_events (rev l) (ArgExc error)
                             ++ [EvSignal "appcontext_tearing_down" (ArgExc error)]))).
  { intros l Hl. unfold do_teardown_appcontext, bind.
    rewrite for_each_invoke_run by (by apply Forall_rev).
    rewrite emit_run, add_event_events, add_events_app. reflexivity. }
  assert (Hreg : teardown_appcontext a f funcs = (Return tt, funcs ++ [f])).
  { unfold teardown_appcontext, setupmethod. by rewrite Hsetup. }
  split; [by apply Hrun|]. split; [exact Hreg|].
  rewrite Hreg. cbn [snd]. rewrite Hrun.
  - by rewrite rev_unit.
  - apply Forall_app. split; [exact Hfuncs|]. by constructor.
Qed.

Lemma do_teardown_appcontext_order_witness :
  w_trace (snd (do_teardown_appcontext
                  (snd (teardown_appcontext app0 (quiet "t2") [quiet "t1"]))
                  None (world0 app0 (ctx0 None))))
  = [EvCall "t2" (ArgExc None); EvCall "t1" (ArgExc None);
     EvSignal "appcontext_tearing_down" (ArgExc None)].
Proof.
  destruct (do_teardown_appcontext_order app0 (world0 app0 (ctx0 None)) None
              [quiet "t1"] (quiet "t2") eq_refl) as (_ & _ & Hrun).
  - repeat constructor.
  - intros x. reflexivity.
  - rewrite Hrun. reflexivity.
Defined.

Section BuildErrors.
Implicit Types (handlers pre post : list build_error_handler) (w : world).

Lemma build_error_handlers_defer endpoint values error handlers w :
  Forall (defers endpoint values error) handlers →
  handle_url_build_error handlers error endpoint values w =
    (Raise error, add_events w (call_events handlers (ArgExc (Some error)))).
Proof.
  intros Hall. revert w. induction Hall as [|h rest Hh _ IH]; intros w.
  - simpl. unfold raise. by rewrite add_events_nil.
  - cbn [handle_url_build_error]. unfold bind at 1, attempt. rewrite invoke_run.
    unfold defers in Hh. rewrite Hh, IH, add_events_app. reflexivity.
Qed.

Lemma build_error_step error endpoint values h rest w :
  handle_url_build_error (h :: rest) error endpoint values w =
    let w1 := add_events w [EvCall (fn_name h) (ArgExc (Some error))] in
    match fn_call h (error, endpoint, values) with
    | Raise e =>
        if isinstance e "BuildError"
        then handle_url_build_error rest e endpoint values w1
        else (Raise e, w1)
    | Return PyNone => handle_url_build_error rest error endpoint values w1
    | Return rv => (Return rv, w1)
    end.
Proof.
  cbn [handle_url_build_error]. unfold bind at 1, attempt. rewrite invoke_run.
  destruct (fn_call h (error, endpoint, values)) as [rv|e]; [by destruct rv|].
  by destruct (isinstance e "BuildError").
Qed.

Lemma build_error_handlers_prefix endpoint values error pre handlers w :
  Forall (defers endpoint values error) pre →
  handle_url_build_error (pre ++ handlers) error endpoint values w =
    handle_url_build_error handlers error endpoint values
      (add_events w (call_events pre (ArgExc (Some error)))).
Proof.
  intros Hpre. revert w. induction Hpre as [|h rest Hh _ IH]; intros w.
  - simpl. by rewrite add_events_nil.
  - cbn [app]. rewrite build_error_step. unfold defers in Hh. rewrite Hh.
    cbn zeta. rewrite IH, add_events_app. reflexivity.
Qed.
End BuildErrors.

(** X17: [handle_url_build_error] tries the handlers in order, each
    with the error, the endpoint and the values.  The first handler that
    returns something other than [None] decides: its value is returned
    and the handlers after it are not called.  When there is no handler,
    or every handler returns [None], the error that was passed in is
    raised. *)
Theorem handle_url_build_error_first_answer
    (w : world) (error : exc) (endpoint : string) (values : pydict) :
  handle_url_build_error [] error endpoint values w = (Raise error, w)
  ∧ (∀ handlers,
        Forall (defers endpoint values error) handlers →
        handle_url_build_error handlers error endpoint values w =
          (Raise error, add_events w (call_events handlers (ArgExc (Some error)))))
  ∧ (∀ pre h post rv,
        Forall (defers endpoint values error) pre →
        fn_call h (error, endpoint, values) = Return rv → rv ≠ PyNone →
        handle_url_build_error (pre ++ h :: post) error endpoint values w =
          (Return rv, add_events w (call_events (pre ++ [h]) (ArgExc (Some error))))).
Proof.
  split; [reflexivity|].
  split; [intros handlers; apply build_error_handlers_defer|].
  intros pre h post rv Hpre Hh Hrv.
  rewrite build_error_handlers_prefix by exact Hpre.
  rewrite build_error_step, Hh. cbn zeta. rewrite add_events_app.
  unfold call_events. rewrite map_app. by destruct rv.
Qed.

Lemma handle_url_build_error_first_answer_witness :
  handle_url_build_error [no_url; external_url; crash] (BuildError "first") "index" ∅
                         (world0 app0 (ctx0 None))
  = (Return (PyStr "https://example.org/"),
     add_events (world0 app0 (ctx0 None))
                [EvCall "no_url" (ArgExc (Some (BuildError "first")));
                 EvCall "external_url" (ArgExc (Some (BuildError "first")))]).
Proof.
  apply (proj2 (proj2 (handle_url_build_error_first_answer
                         (world0 app0 (ctx0 None)) (BuildError "first") "index" ∅))
           [no_url] external_url [crash] (PyStr "https://example.org/")).
  - repeat constructor.
  - reflexivity.
  - discriminate.
Defined.

(** X18: a [BuildError] raised by a handler replaces the error: the
    handlers after it are called with the new error, and it is the new
    error that is raised when none of them answers.  Any other exception
    raised by a handler leaves the method at once, and the handlers after
    it are not called. *)
Theorem handle_url_build_error_replaces_error
    (w : world) (error : exc) (endpoint : string) (values : pydict)
    (h : build_error_handler) (rest : list build_error_handler) (e : exc) :
  fn_call h (error, endpoint, values) = Raise e →
  let w1 := add_events w [EvCall (fn_name h) (ArgExc (Some error))] in
  (isinstance e "BuildError" = true →
   handle_url_build_error (h :: rest) error endpoint values w =
     handle_url_build_error rest e endpoint values w1
   ∧ (Forall (defers endpoint values e) rest →
      handle_url_build_error (h :: rest) error endpoint values w =
        (Raise e, add_events w1 (call_events rest (ArgExc (Some e))))))
  ∧ (isinstance e "BuildError" = false →
     handle_url_build_error (h :: rest) error endpoint values w = (Raise e, w1)).
Proof.
  intros Hh w1. split.
  - intros Hbuild.
    assert (Hstep : handle_url_build_error (h :: rest) error endpoint values w =
                    handle_url_build_error rest e endpoint values w1).
    { by rewrite build_error_step, Hh, Hbuild. }
    split; [exact Hstep|]. intros Hrest.
    by rewrite Hstep, build_error_handlers_defer.
  - intros Hother. by rewrite build_error_step, Hh, Hother.
Qed.

Lemma handle_url_build_error_replaces_error_witness :
  handle_url_build_error [rebuild; no_url] (BuildError "first") "index" ∅
                         (world0 app0 (ctx0 None))
  = (Raise (BuildError "second"),
     add_events (world0 app0 (ctx0 None))
                [EvCall "rebuild" (ArgExc (Some (BuildError "first")));
                 EvCall "no_url" (ArgExc (Some (BuildError "second")))]).
Proof.
  destruct (handle_url_build_error_replaces_error
              (world0 app0 (ctx0 None)) (BuildError "first") "index" ∅
              rebuild [no_url] (BuildError "second") eq_refl) as [Hbuild _].
  destruct (Hbuild eq_refl) as [_ Hall].
  rewrite Hall; [reflexivity|]. repeat constructor.
Defined.

Section Endpoints.
Implicit Types (bp name s : string).

Lemma contains_dot_app s name :
  contains_dot (s ++ name) = contains_dot s || contains_dot name.
Proof.
  induction s as [|c rest IH]; simpl; [done|]. rewrite IH. by rewrite orb_assoc.
Qed.

Lemma contains_dot_qualified bp name : contains_dot (bp ++ "." ++ name) = true.
Proof. rewrite !contains_dot_app. simpl. by rewrite orb_true_r. Qed.

(** The blueprint part of ["bp.name"] is [bp], whatever dots [bp] has. *)
Lemma before_last_dot_qualified bp name :
  contains_dot name = false → before_last_dot (bp ++ "." ++ name) = bp.
Proof.
  intros Hname. induction bp as [|c rest IH].
  - change ("" ++ "." ++ name)%string with (String "." name).
    cbn [before_last_dot]. by rewrite Hname.
  - change (String c rest ++ "." ++ name)%string
      with (String c (rest ++ "." ++ name)).
    cbn [before_last_dot]. rewrite contains_dot_qualified. by rewrite IH.
Qed.

Lemma run_url_defaults_run (funcs : list url_default_function) endpoint
      (values : pydict) (w : world) :
  Forall never_raises funcs →
  run_url_defaults funcs endpoint values w =
    (Return (fold_left (fun v f => apply_url_default endpoint f v) funcs values),
     add_events w (call_events funcs ArgNone)).
Proof.
  intros Hall. revert values w. induction Hall as [|f rest Hf _ IH]; intros values w.
  - simpl. unfold ret. by rewrite add_events_nil.
  - cbn [run_url_defaults fold_left]. unfold bind at 1. rewrite invoke_run.
    specialize (Hf (endpoint, values)).
    destruct (fn_call f (endpoint, values)) as [d|ex] eqn:Hcall; [|discriminate].
    assert (Happly : apply_url_default endpoint f values = d)
      by (unfold apply_url_default; by rewrite Hcall).
    rewrite Happly, IH, add_events_app. reflexivity.
Qed.
End Endpoints.

(** X19: [inject_url_defaults] calls the URL default functions of the
    application and, for an endpoint with a dot, then those registered
    under what stands before the last dot, which for ["bp.name"] with a
    dotless name is the blueprint [bp]; for an endpoint without a dot
    only those of the application run.  Each function works on the values
    that the one before it left (stated for functions that return). *)
Theorem inject_url_defaults_scope
    (url_default_functions : gmap (option string) (list url_default_function))
    (bp name : string) (values : pydict) (w : world) :
  contains_dot name = false →
  let global := default [] (url_default_functions !! None) in
  let scoped := default [] (url_default_functions !! Some bp) in
  (Forall never_raises global →
   inject_url_defaults url_default_functions name values w =
     (Return (fold_left (fun v f => apply_url_default name f v) global values),
      add_events w (call_events global ArgNone)))
  ∧ (Forall never_raises (global ++ scoped) →
     inject_url_defaults url_default_functions (bp ++ "." ++ name) values w =
       (Return (fold_left (fun v f => apply_url_default (bp ++ "." ++ name) f v)
                          (global ++ scoped) values),
        add_events w (call_events (global ++ scoped) ArgNone))).
Proof.
  intros Hname global scoped. unfold inject_url_defaults, url_default_chain. split.
  - intros Hall. rewrite Hname. by apply run_url_defaults_run.
  - intros Hall. rewrite contains_dot_qualified, before_last_dot_qualified by exact Hname.
    by apply run_url_defaults_run.
Qed.

Lemma inject_url_defaults_scope_witness :
  fst (inject_url_defaults
         {[ None := [set_lang "app_default" "en"];
            Some "admin.users" := [set_lang "bp_default" "fr"] ]}
         ("admin.users" ++ "." ++ "list") ∅ (world0 app0 (ctx0 None)))
  = Return {[ "lang" := PyStr "fr" ]}.
Proof.
  assert (Hall : Forall never_raises
                   ([set_lang "app_default" "en"] ++ [set_lang "bp_default" "fr"])).
  { repeat constructor. }
  pose proof (proj2 (inject_url_defaults_scope
                {[ None := [set_lang "app_default" "en"];
                   Some "admin.users" := [set_lang "bp_default" "fr"] ]}
                "admin.users" "list" ∅ (world0 app0 (ctx0 None)) eq_refl)) as Hrun.
  cbv zeta in Hrun. rewrite Hrun.
  - vm_compute. reflexivity.
  - vm_compute. repeat constructor.
Defined.

Section Suffix.
Implicit Types (s suffix stem : string).

Lemma endswith_app stem suffix : endswith (stem ++ suffix) suffix = true.
Proof.
  induction stem as [|c rest IH].
  - change ("" ++ suffix)%string with suffix.
    destruct suffix; cbn [endswith]; by rewrite String.eqb_refl.
  - change (String c rest ++ suffix)%string with (String c (rest ++ suffix)).
    cbn [endswith].
    destruct (String.eqb (String c (rest ++ suffix)) suffix); [done|exact IH].
Qed.

Lemma endswith_inv s suffix : endswith s suffix = true → ∃ stem, s = (stem ++ suffix)%string.
Proof.
  induction s as [|c rest IH]; cbn [endswith].
  - destruct (String.eqb_spec "" suffix) as [<-|_]; [|discriminate].
    intros _. exists "". reflexivity.
  - destruct (String.eqb_spec (String c rest) suffix) as [<-|_].
    + intros _. exists "". reflexivity.
    + intros Hrest. destruct (IH Hrest) as [stem ->]. exists (String c stem).
      reflexivity.
Qed.
End Suffix.

(** X20: [select_jinja_autoescape] is true when no template name is
    given, and for a name exactly when the name ends in [.html], [.htm],
    [.xml] or [.xhtml] (as written: the comparison is case-sensitive). *)
Theorem select_jinja_autoescape_extensions (filename : string) :
  select_jinja_autoescape None = true
  ∧ (select_jinja_autoescape (Some filename) = true
     ↔ ∃ stem ext, In ext [".html"; ".htm"; ".xml"; ".xhtml"]
                   ∧ filename = (stem ++ ext)%string)
  ∧ select_jinja_autoescape (Some "page.HTML") = false.
Proof.
  split; [reflexivity|]. split; [|reflexivity].
  unfold select_jinja_autoescape. rewrite existsb_exists. split.
  - intros (ext & Hin & Hends). destruct (endswith_inv _ _ Hends) as [stem ->].
    by exists stem, ext.
  - intros (stem & ext & Hin & ->). exists ext. split; [exact Hin|apply endswith_app].
Qed.

Section ContextProcessors.
Implicit Types (funcs pre : list context_processor) (context : pydict) (w : world).

Lemma run_context_processors_run funcs context w :
  Forall never_raises funcs →
  run_context_processors funcs context w =
    (Return (merged funcs context), add_events w (call_events funcs ArgNone)).
Proof.
  intros Hall. revert context w. induction Hall as [|f rest Hf _ IH]; intros context w.
  - simpl. unfold ret. by rewrite add_events_nil.
  - cbn [run_context_processors]. unfold bind at 1. rewrite invoke_run.
    unfold merged. cbn [fold_left]. fold (merged rest (injected f ∪ context)).
    unfold injected at 1. specialize (Hf tt).
    destruct (fn_call f tt) as [d|ex]; [|discriminate].
    rewrite IH, add_events_app. reflexivity.
Qed.

Lemma merged_snoc pre f context :
  merged (pre ++ [f]) context = injected f ∪ merged pre context.
Proof. unfold merged. by rewrite fold_left_app. Qed.

(** An update never removes a key. *)
Lemma merged_keeps_keys funcs context k :
  is_Some (context !! k) → is_Some (merged funcs context !! k).
Proof.
  revert context. induction funcs as [|f rest IH]; intros context Hk; [done|].
  unfold merged. cbn [fold_left]. apply IH.
  destruct Hk as [v Hv]. destruct (injected f !! k) as [v'|] eqn:Hinj.
  - exists v'. by apply lookup_union_Some_l.
  - exists v. rewrite lookup_union_r; done.
Qed.
End ContextProcessors.

(** X21: [update_template_context] calls the context processors of the
    application, then those of the blueprint of the current request (if
    there is a request with a blueprint that has processors), and updates
    the context with what each returns; the values that the context had
    before win over everything injected, and among the processors the
    last one wins.  Without an entry for the application in
    [template_context_processors] a [KeyError] is raised and nothing is
    called. *)
Theorem update_template_context_original_wins
    (template_context_processors : gmap (option string) (list context_processor))
    (reqctx : option RequestContext) (context : pydict) (w : world) :
  (template_context_processors !! None = None →
   update_template_context template_context_processors reqctx context w
   = (Raise (KeyError "None"), w))
  ∧ (∀ global,
        template_context_processors !! None = Some global →
        let funcs :=
          global ++ match reqctx with
                    | Some ctx => scoped_hooks template_context_processors (blueprint ctx)
                    | None => []
                    end in
        Forall never_raises funcs →
        ∃ result,
          update_template_context template_context_processors reqctx context w
          = (Return result, add_events w (call_events funcs ArgNone))
          ∧ (∀ k v, context !! k = Some v → result !! k = Some v)
          ∧ (∀ pre f k v,
                funcs = pre ++ [f] → context !! k = None →
                injected f !! k = Some v → result !! k = Some v)).
Proof.
  split.
  - intros Hnone. unfold update_template_context. by rewrite Hnone.
  - intros global Hglobal funcs Hall.
    exists (context ∪ merged funcs context). split; [|split].
    + unfold update_template_context. rewrite Hglobal.
      assert (Hfuncs :
        match reqctx with
        | Some ctx =>
            match blueprint ctx with
            | Some bp =>
                match template_context_processors !! Some bp with
                | Some l => global ++ l
                | None => global
                end
            | None => global
            end
        | None => global
        end = funcs).
      { unfold funcs, scoped_hooks. destruct reqctx as [ctx|]; [|by rewrite app_nil_r].
        destruct (blueprint ctx) as [bp|]; [|by rewrite app_nil_r].
        destruct (template_context_processors !! Some bp); [done|].
        by rewrite app_nil_r. }
      rewrite Hfuncs. unfold bind. by rewrite run_context_processors_run.
    + intros k v Hk. by apply lookup_union_Some_l.
    + intros pre f k v Hsplit Hk Hinj. rewrite lookup_union_r by exact Hk.
      rewrite Hsplit, merged_snoc. by apply lookup_union_Some_l.
Qed.

Lemma update_template_context_original_wins_witness :
  ∃ result,
    fst (update_template_context
           {[ None := [inject "first" "user" "guest"; inject "second" "user" "admin";
                       inject "third" "title" "injected"] ]}
           None {[ "title" := PyStr "mine" ]} (world0 app0 (ctx0 None)))
    = Return result
    ∧ result !! "title" = Some (PyStr "mine").
Proof.
  assert (Hglobal :
    ({[ None := [inject "first" "user" "guest"; inject "second" "user" "admin";
                 inject "third" "title" "injected"] ]}
       : gmap (option string) (list context_processor)) !! None
    = Some [inject "first" "user" "guest"; inject "second" "user" "admin";
            inject "third" "title" "injected"]).
  { vm_compute. reflexivity. }
  destruct (proj2 (update_template_context_original_wins
                     {[ None := [inject "first" "user" "guest";
                                 inject "second" "user" "admin";
                                 inject "third" "title" "injected"] ]}
                     None {[ "title" := PyStr "mine" ]} (world0 app0 (ctx0 None)))
                  _ Hglobal)
    as (result & Hrun & Horig & _).
  - repeat constructor.
  - exists result. rewrite Hrun. split; [reflexivity|].
    apply Horig. vm_compute. reflexivity.
Defined.

(** X22: the shell context starts from the entries [app] and [g]; every
    shell context processor is called in registration order and its
    result is merged in, so both keys are always present in the result,
    and what the last processor returns wins, also over [app] and [g]
    (stated for processors that return). *)
Theorem make_shell_context_entries
    (shell_context_processors : list context_processor) (w : world) :
  Forall never_raises shell_context_processors →
  ∃ rv,
    make_shell_context shell_context_processors w
    = (Return rv, add_events w (call_events shell_context_processors ArgNone))
    ∧ is_Some (rv !! "app") ∧ is_Some (rv !! "g")
    ∧ (shell_context_processors = [] →
       rv = {[ "app" := PyObject "Flask"; "g" := PyObject "_AppCtxGlobals" ]})
    ∧ (∀ pre f k v,
          shell_context_processors = pre ++ [f] →
          injected f !! k = Some v → rv !! k = Some v).
Proof.
  intros Hall. eexists. split; [|split; [|split; [|split]]].
  - unfold make_shell_context. by apply run_context_processors_run.
  - apply merged_keeps_keys. by eexists.
  - apply merged_keeps_keys. by eexists.
  - intros ->. reflexivity.
  - intros pre f k v -> Hinj. rewrite merged_snoc. by apply lookup_union_Some_l.
Qed.

Lemma make_shell_context_entries_witness :
  ∃ rv,
    fst (make_shell_context [inject "db" "db" "session"; inject "fake" "app" "stub"]
                            (world0 app0 (ctx0 None)))
    = Return rv
    ∧ rv !! "app" = Some (PyStr "stub") ∧ is_Some (rv !! "g").
Proof.
  destruct (make_shell_context_entries
              [inject "db" "db" "session"; inject "fake" "app" "stub"]
              (world0 app0 (ctx0 None))) as (rv & Hrun & _ & Hg & _ & Hlast).
  - repeat constructor.
  - exists rv. rewrite Hrun. split; [reflexivity|]. split; [|exact Hg].
    apply (Hlast [inject "db" "db" "session"] (inject "fake" "app" "stub")).
    + reflexivity.
    + vm_compute. reflexivity.
Defined.

Section RegisterBlueprint.
Implicit Types (a : Flask) (s : Blueprints) (b : Blueprint).

Lemma register_blueprint_run a b s :
  _is_setup_finished a = false →
  register_blueprint a b s =
    match blueprints s !! bp_name b with
    | Some registered =>
        if Nat.eqb (bp_id registered) (bp_id b)
        then call_register b false s
        else (Raise (AssertionError "A name collision occurred between blueprints"), s)
    | None =>
        call_register b true
          (mkBlueprints (<[bp_name b := b]> (blueprints s)) (_blueprint_order s ++ [b])
                        (register_calls s))
    end.
Proof. intros Hsetup. unfold register_blueprint, setupmethod. by rewrite Hsetup. Qed.
End RegisterBlueprint.

(** X23: while setup is open, registering a blueprint whose name is
    new records it under its name, appends it to the registration order
    and calls [blueprint.register] with [first_registration] true;
    registering the same object again leaves [blueprints] and
    [_blueprint_order] as they are and calls [blueprint.register] once
    more, with [first_registration] false; either way the outcome of the
    method is the outcome of that call.  Registering another object
    under a name that is taken raises an [AssertionError]: nothing is
    changed and [blueprint.register] is not called. *)
Theorem register_blueprint_names (a : Flask) (s : Blueprints) (b : Blueprint) :
  _is_setup_finished a = false →
  (blueprints s !! bp_name b = None →
   let s' := snd (register_blueprint a b s) in
   let s'' := snd (register_blueprint a b s') in
   fst (register_blueprint a b s) = bp_register b true
   ∧ blueprints s' !! bp_name b = Some b
   ∧ iter_blueprints s' = iter_blueprints s ++ [b]
   ∧ register_calls s' = register_calls s ++ [(b, true)]
   ∧ fst (register_blueprint a b s') = bp_register b false
   ∧ blueprints s'' = blueprints s'
   ∧ iter_blueprints s'' = iter_blueprints s'
   ∧ register_calls s'' = register_calls s ++ [(b, true); (b, false)])
  ∧ (∀ other, blueprints s !! bp_name b = Some other → bp_id other ≠ bp_id b →
              register_blueprint a b s
              = (Raise (AssertionError "A name collision occurred between blueprints"), s)).
Proof.
  intros Hsetup. split.
  - intros Hnew. cbn zeta.
    rewrite (register_blueprint_run a b s Hsetup), Hnew.
    cbn [call_register fst snd].
    rewrite register_blueprint_run by exact Hsetup.
    cbn [blueprints _blueprint_order register_calls].
    rewrite lookup_insert_eq, Nat.eqb_refl.
    cbn [call_register fst snd blueprints _blueprint_order register_calls].
    unfold iter_blueprints. cbn [_blueprint_order].
    rewrite <- app_assoc. done.
  - intros other Hother Hid. rewrite register_blueprint_run by exact Hsetup.
    rewrite Hother. by rewrite (proj2 (Nat.eqb_neq _ _) Hid).
Qed.

Lemma register_blueprint_names_witness :
  register_calls (snd (register_blueprint app0 admin
                         (snd (register_blueprint app0 admin no_blueprints))))
  = [(admin, true); (admin, false)]
  ∧ register_blueprint app0 admin_copy
      (snd (register_blueprint app0 admin no_blueprints))
    = (Raise (AssertionError "A name collision occurred between blueprints"),
       snd (register_blueprint app0 admin no_blueprints)).
Proof.
  split.
  - apply (proj1 (register_blueprint_names app0 no_blueprints admin eq_refl)).
    vm_compute. reflexivity.
  - apply (proj2 (register_blueprint_names
                    app0 (snd (register_blueprint app0 admin no_blueprints)) admin_copy
                    eq_refl) admin).
    + vm_compute. reflexivity.
    + discriminate.
Defined.

(** X24: [register_blueprint] keeps the two attributes in step: if the
    blueprints in the registration order are exactly those recorded
    under their names, with no name twice, this is still so after the
    call, whatever its outcome; and the order of the blueprints
    registered before is not disturbed. *)
Theorem register_blueprint_consistent (a : Flask) (s : Blueprints) (b : Blueprint) :
  blueprints_consistent s →
  blueprints_consistent (snd (register_blueprint a b s))
  ∧ ∃ added, iter_blueprints (snd (register_blueprint a b s)) = iter_blueprints s ++ added.
Proof.
  intros [Hnodup Hsame]. unfold register_blueprint, setupmethod.
  destruct (_is_setup_finished a).
  { split; [by split|]. exists []. by rewrite app_nil_r. }
  destruct (blueprints s !! bp_name b) as [registered|] eqn:Hname.
  { destruct (Nat.eqb (bp_id registered) (bp_id b));
      (split; [by split|]); exists []; cbn; by rewrite app_nil_r. }
  cbn [call_register snd]. split; [|by exists [b]].
  unfold blueprints_consistent. cbn [blueprints _blueprint_order]. split.
  - rewrite map_app. cbn [map]. apply NoDup_app. split; [exact Hnodup|]. split.
    + intros name Hin [Heq|[]]%list_elem_of_In. subst name.
      apply list_elem_of_In, in_map_iff in Hin as (b' & Hb' & Hin').
      apply Hsame in Hin'. rewrite Hb' in Hin'. congruence.
    + apply NoDup_singleton.
  - intros b'. rewrite in_app_iff. cbn [In]. split.
    + intros [Hin|[<-|[]]].
      * rewrite lookup_insert_ne; [by apply Hsame|].
        intros Heq. apply Hsame in Hin. rewrite <- Heq in Hin. congruence.
      * by rewrite lookup_insert_eq.
    + destruct (decide (bp_name b = bp_name b')) as [Heq|Hne].
      * rewrite Heq, lookup_insert_eq. intros [= ->]. right. by left.
      * rewrite lookup_insert_ne by exact Hne. intros Hreg. left. by apply Hsame.
Qed.

Lemma register_blueprint_consistent_witness :
  blueprints_consistent (snd (register_blueprint app0 api no_blueprints)).
Proof.
  apply (register_blueprint_consistent app0 no_blueprints api).
  split; [constructor|]. intros b. split; [intros []|].
  unfold no_blueprints. cbn [blueprints]. rewrite lookup_empty. discriminate.
Defined.

Section AddUrlRule.
Implicit Types (a : Flask) (s : Routes) (view : option view_func).

(** The rule that [add_url_rule] adds for a sequence of methods and a
    given endpoint: its methods and its automatic-options flag. *)
Lemma add_url_rule_run a endpoint_of rule ep view pao items s :
  _is_setup_finished a = false →
  ∃ r,
    add_url_rule a endpoint_of rule (Some ep) view pao (MethodsSeq items) s
    = register_view_func ep view (mkRoutes (url_map s ++ [r]) (view_functions s))
    ∧ rule_string r = rule ∧ rule_endpoint r = ep
    ∧ (∀ m, m ∈ rule_methods r ↔
            m ∈ map upper items
            ∨ (∃ v, view = Some v ∧ m ∈ view_required_methods v)
            ∨ (m = "OPTIONS" ∧ rule_provide_automatic_options r = true
               ∧ pao = None
               ∧ ∀ v, view = Some v → view_provide_automatic_options v = None))
    ∧ match pao with
      | Some b => rule_provide_automatic_options r = b
      | None =>
          match view ≫= view_provide_automatic_options with
          | Some b => rule_provide_automatic_options r = b
          | None =>
              rule_provide_automatic_options r
              = negb (bool_decide ("OPTIONS" ∈ map upper items))
          end
      end.
Proof.
  intros Hsetup. unfold add_url_rule, setupmethod. rewrite Hsetup.
  set (methods := list_to_set (map upper items) : gset string).
  set (required := match view with
                   | Some v => list_to_set (view_required_methods v)
                   | None => ∅
                   end : gset string).
  assert (Hreq : ∀ m, m ∈ required ↔ ∃ v, view = Some v ∧ m ∈ view_required_methods v).
  { intros m. unfold required. destruct view as [v|].
    - rewrite elem_of_list_to_set. split; [by exists v|]. by intros (v' & [= <-] & Hm).
    - split; [set_solver|]. by intros (v' & [=] & _). }
  assert (Hmeth : ∀ m, m ∈ methods ↔ m ∈ map upper items).
  { intros m. unfold methods. by rewrite elem_of_list_to_set. }
  destruct pao as [b|].
  - (* the flag was passed *)
    eexists. split; [reflexivity|].
    cbn [rule_string rule_endpoint rule_methods rule_provide_automatic_options].
    split; [reflexivity|]. split; [reflexivity|]. split; [|reflexivity].
    intros m. rewrite elem_of_union, Hmeth, Hreq. split; [tauto|].
    intros [?|[?|(_ & _ & [=] & _)]]; tauto.
  - destruct (view ≫= view_provide_automatic_options) as [b|] eqn:Hattr.
    + (* the view function carries the flag *)
      destruct view as [v|]; [|discriminate]. cbn in Hattr.
      eexists. split; [by rewrite Hattr|].
      cbn [rule_string rule_endpoint rule_methods rule_provide_automatic_options].
      split; [reflexivity|]. split; [reflexivity|]. split; [|reflexivity].
      intros m. rewrite elem_of_union, Hmeth, Hreq. split; [tauto|].
      intros [?|[?|(_ & _ & _ & Hnone)]]; [tauto|tauto|].
      specialize (Hnone v eq_refl). congruence.
    + (* the flag is derived from the methods *)
      assert (Hnone : ∀ v, view = Some v → view_provide_automatic_options v = None).
      { intros v ->. exact Hattr. }
      assert (Hflag : match view with
                      | Some v => view_provide_automatic_options v
                      | None => None
                      end = None).
      { destruct view as [v|]; [by apply Hnone|done]. }
      rewrite Hflag.
      destruct (bool_decide ("OPTIONS" ∈ methods)) eqn:Hopt.
      * eexists. split; [reflexivity|].
        cbn [rule_string rule_endpoint rule_methods rule_provide_automatic_options].
        split; [reflexivity|]. split; [reflexivity|]. split.
        -- intros m. rewrite elem_of_union, Hmeth, Hreq. split; [tauto|].
           intros [?|[?|(_ & [=] & _)]]; tauto.
        -- apply bool_decide_eq_true in Hopt. apply Hmeth in Hopt.
           by rewrite bool_decide_eq_true_2.
      * eexists. split; [reflexivity|].
        cbn [rule_string rule_endpoint rule_methods rule_provide_automatic_options].
        split; [reflexivity|]. split; [reflexivity|]. split.
        -- intros m. rewrite !elem_of_union, elem_of_singleton, Hmeth, Hreq.
           split; [|tauto]. intros [?|[?| ->]]; [tauto|tauto|].
           right. right. done.
        -- apply bool_decide_eq_false in Hopt.
           rewrite bool_decide_eq_false_2; [done|]. by rewrite <- Hmeth.
Qed.
End AddUrlRule.

Section ViewFunctions.
Implicit Types (s : Routes) (view : option view_func).

Lemma register_view_func_url_map ep view s :
  url_map (snd (register_view_func ep view s)) = url_map s.
Proof.
  unfold register_view_func. destruct view as [v|]; [|done].
  destruct (view_functions s !! ep) as [old|]; [|done].
  by destruct (negb (Nat.eqb (view_id old) (view_id v))).
Qed.
End ViewFunctions.

(** X25: when neither the call nor the view function says whether
    automatic options are provided, [add_url_rule] decides from the
    methods, compared in upper case: the rule provides automatic options
    exactly when OPTIONS is not among them, and OPTIONS is among the
    methods of the rule either way; every method given is a method of the
    rule in upper case, and the rule is appended to the URL map. *)
Theorem add_url_rule_automatic_options
    (a : Flask) (endpoint_of : option view_func → outcome string)
    (rule ep : string) (view : option view_func) (items : list string) (s : Routes) :
  _is_setup_finished a = false →
  (∀ v, view = Some v → view_provide_automatic_options v = None) →
  ∃ r,
    url_map (snd (add_url_rule a endpoint_of rule (Some ep) view None
                               (MethodsSeq items) s))
    = url_map s ++ [r]
    ∧ rule_endpoint r = ep
    ∧ "OPTIONS" ∈ rule_methods r
    ∧ rule_provide_automatic_options r = negb (bool_decide ("OPTIONS" ∈ map upper items))
    ∧ ∀ m, m ∈ items → upper m ∈ rule_methods r.
Proof.
  intros Hsetup Hattr.
  destruct (add_url_rule_run a endpoint_of rule ep view None items s Hsetup)
    as (r & Hrun & _ & Hep & Hmethods & Hflag).
  assert (Hnone : view ≫= view_provide_automatic_options = None).
  { destruct view as [v|]; [by apply Hattr|done]. }
  rewrite Hnone in Hflag.
  exists r. rewrite Hrun, register_view_func_url_map. cbn [url_map].
  split; [reflexivity|]. split; [exact Hep|]. split; [|split; [exact Hflag|]].
  - apply Hmethods. destruct (bool_decide ("OPTIONS" ∈ map upper items)) eqn:Hopt.
    + left. by apply bool_decide_eq_true in Hopt.
    + right. right. by rewrite Hflag.
  - intros m Hm. apply Hmethods. left. by apply list_elem_of_fmap_2.
Qed.

Lemma add_url_rule_automatic_options_witness :
  ∃ r,
    url_map (snd (add_url_rule app0 name_of "/" (Some "index") None None
                               (MethodsSeq ["get"; "Options"]) no_routes))
    = [r]
    ∧ rule_provide_automatic_options r = false ∧ "GET" ∈ rule_methods r.
Proof.
  destruct (add_url_rule_automatic_options app0 name_of "/" "index" None
              ["get"; "Options"] no_routes eq_refl)
    as (r & Hmap & _ & _ & Hflag & Hupper).
  - intros v [=].
  - exists r. split; [exact Hmap|]. split; [exact Hflag|].
    apply (Hupper "get"). by left.
Defined.

(** X26: a flag passed to [add_url_rule] is the flag of the rule, and
    then the method adds nothing to the methods: they are the given
    methods in upper case and the required methods of the view function.
    In particular a rule registered with the flag off and without OPTIONS
    among its methods does not answer OPTIONS. *)
Theorem add_url_rule_explicit_flag
    (a : Flask) (endpoint_of : option view_func → outcome string)
    (rule ep : string) (view : option view_func) (flag : bool)
    (items : list string) (s : Routes) :
  _is_setup_finished a = false →
  ∃ r,
    url_map (snd (add_url_rule a endpoint_of rule (Some ep) view (Some flag)
                               (MethodsSeq items) s))
    = url_map s ++ [r]
    ∧ rule_provide_automatic_options r = flag
    ∧ ∀ m, m ∈ rule_methods r ↔
           m ∈ map upper items ∨ ∃ v, view = Some v ∧ m ∈ view_required_methods v.
Proof.
  intros Hsetup.
  destruct (add_url_rule_run a endpoint_of rule ep view (Some flag) items s Hsetup)
    as (r & Hrun & _ & _ & Hmethods & Hflag).
  exists r. rewrite Hrun, register_view_func_url_map. cbn [url_map].
  split; [reflexivity|]. split; [exact Hflag|].
  intros m. rewrite Hmethods. split; [|tauto].
  intros [?|[?|(_ & _ & [=] & _)]]; tauto.
Qed.

Lemma add_url_rule_explicit_flag_witness :
  ∃ r,
    url_map (snd (add_url_rule app0 name_of "/" (Some "index") None (Some false)
                               (MethodsSeq ["get"]) no_routes))
    = [r]
    ∧ rule_provide_automatic_options r = false ∧ "OPTIONS" ∉ rule_methods r.
Proof.
  destruct (add_url_rule_explicit_flag app0 name_of "/" "index" None false
              ["get"] no_routes eq_refl) as (r & Hmap & Hflag & Hmethods).
  exists r. split; [exact Hmap|]. split; [exact Hflag|].
  intros [Hin|(v & [=] & _)]%Hmethods.
  apply list_elem_of_In in Hin. destruct Hin as [[=]|[]].
Defined.

(** X27: methods given as one string are refused with a [TypeError]
    and nothing is registered; when no methods are given the [methods]
    attribute of the view function is used if it is set and not empty,
    and otherwise the rule is registered for GET alone. *)
Theorem add_url_rule_methods_argument
    (a : Flask) (endpoint_of : option view_func → outcome string)
    (rule ep : string) (view : option view_func) (pao : option bool) (s : Routes) :
  _is_setup_finished a = false →
  (∀ m, add_url_rule a endpoint_of rule (Some ep) view pao (MethodsStr m) s
        = (Raise methods_type_error, s))
  ∧ (∀ v, view = Some v → methods_truthy (view_methods v) = true →
          add_url_rule a endpoint_of rule (Some ep) view pao MethodsNone s
          = add_url_rule a endpoint_of rule (Some ep) view pao (view_methods v) s)
  ∧ (view = None ∨ (∃ v, view = Some v ∧ methods_truthy (view_methods v) = false) →
     add_url_rule a endpoint_of rule (Some ep) view pao MethodsNone s
     = add_url_rule a endpoint_of rule (Some ep) view pao (MethodsSeq ["GET"]) s).
Proof.
  intros Hsetup. unfold add_url_rule, setupmethod. rewrite Hsetup.
  split; [reflexivity|]. split.
  - intros v -> Htruthy. rewrite Htruthy.
    destruct (view_methods v) as [|m|items]; [discriminate|reflexivity|reflexivity].
  - intros [-> | (v & -> & Hfalsy)]; [reflexivity|]. by rewrite Hfalsy.
Qed.

Lemma add_url_rule_methods_argument_witness :
  add_url_rule app0 name_of "/" (Some "index") None None (MethodsStr "POST") no_routes
  = (Raise methods_type_error, no_routes).
Proof.
  apply (proj1 (add_url_rule_methods_argument app0 name_of "/" "index" None None
                  no_routes eq_refl)).
Defined.

(** X28: a view function is recorded under the endpoint of the rule.
    When the endpoint already has a different view function,
    [add_url_rule] raises an [AssertionError] and leaves [view_functions]
    as it was, but the rule has been added to the URL map by then;
    registering the same view function again, or a view function for a
    new endpoint, succeeds and leaves the other endpoints alone. *)
Theorem add_url_rule_view_function
    (a : Flask) (endpoint_of : option view_func → outcome string)
    (rule ep : string) (v : view_func) (pao : option bool)
    (items : list string) (s : Routes) :
  _is_setup_finished a = false →
  let result := add_url_rule a endpoint_of rule (Some ep) (Some v) pao
                             (MethodsSeq items) s in
  length (url_map (snd result)) = S (length (url_map s))
  ∧ (∀ old, view_functions s !! ep = Some old → view_id old ≠ view_id v →
            is_raise (fst result) = true
            ∧ view_functions (snd result) = view_functions s)
  ∧ (view_functions s !! ep = None
     ∨ (∃ old, view_functions s !! ep = Some old ∧ view_id old = view_id v) →
     fst result = Return tt
     ∧ view_functions (snd result) !! ep = Some v
     ∧ ∀ other, other ≠ ep →
                view_functions (snd result) !! other = view_functions s !! other).
Proof.
  intros Hsetup result. subst result.
  destruct (add_url_rule_run a endpoint_of rule ep (Some v) pao items s Hsetup)
    as (r & Hrun & _).
  rewrite Hrun. split; [|split].
  - rewrite register_view_func_url_map. cbn [url_map].
    rewrite length_app. simpl. lia.
  - intros old Hold Hid. unfold register_view_func. cbn [view_functions].
    rewrite Hold. by rewrite (proj2 (Nat.eqb_neq _ _) Hid).
  - intros Hfree. unfold register_view_func. cbn [view_functions url_map].
    assert (Hok : match view_functions s !! ep with
                  | Some old_func =>
                      if negb (Nat.eqb (view_id old_func) (view_id v))
                      then (Raise (AssertionError
                                     ("View function mapping is overwriting an existing endpoint function: "
                                      ++ ep)%string),
                            mkRoutes (url_map s ++ [r]) (view_functions s))
                      else (Return tt,
                            mkRoutes (url_map s ++ [r]) (<[ep := v]> (view_functions s)))
                  | None =>
                      (Return tt,
                       mkRoutes (url_map s ++ [r]) (<[ep := v]> (view_functions s)))
                  end = (Return tt,
                         mkRoutes (url_map s ++ [r]) (<[ep := v]> (view_functions s)))).
    { destruct Hfree as [-> | (old & -> & Hid)]; [reflexivity|].
      by rewrite Hid, Nat.eqb_refl. }
    rewrite Hok. cbn [fst snd view_functions].
    split; [reflexivity|]. split; [by rewrite lookup_insert_eq|].
    intros other Hne. by rewrite lookup_insert_ne.
Qed.

Lemma add_url_rule_view_function_witness :
  is_raise (fst (add_url_rule app0 name_of "/again" (Some "index") (Some (plain_view 2))
                              None (MethodsSeq ["GET"])
                              (mkRoutes [] {[ "index" := plain_view 1 ]}))) = true
  ∧ length (url_map (snd (add_url_rule app0 name_of "/again" (Some "index")
                                       (Some (plain_view 2)) None (MethodsSeq ["GET"])
                                       (mkRoutes [] {[ "index" := plain_view 1 ]}))))
    = 1%nat.
Proof.
  destruct (add_url_rule_view_function app0 name_of "/again" "index" (plain_view 2)
              None ["GET"] (mkRoutes [] {[ "index" := plain_view 1 ]}) eq_refl)
    as (Hlen & Hclash & _).
  split; [|exact Hlen].
  apply (Hclash (plain_view 1)); [vm_compute; reflexivity|discriminate].
Defined.

Section FullDispatch.
Implicit Types (w : world).

(** [full_dispatch_request], one case per path. *)
Lemma full_dispatch_request_run w :
  full_dispatch_request w =
    match try_trigger_before_first_request_functions w with
    | (Raise ex, w1) => (Raise ex, w1)
    | (Return _, w1) =>
        match dispatch_attempt w1 with
        | (Return rv, w2) => finalize_request rv false w2
        | (Raise e, w2) =>
            if isinstance e "Exception" then
              match handle_user_exception e w2 with
              | (Return rv, w3) => finalize_request rv false w3
              | (Raise e', w3) => (Raise e', w3)
              end
            else (Raise e, w2)
        end
    end.
Proof.
  unfold full_dispatch_request, bind at 1.
  destruct (try_trigger_before_first_request_functions w) as [[[]|ex] w1]; [|done].
  unfold bind at 1, try_except. fold dispatch_attempt.
  destruct (dispatch_attempt w1) as [[rv|e] w2]; [done|].
  destruct (isinstance e "Exception"); [|done].
  by destruct (handle_user_exception e w2) as [[rv|e'] w3].
Qed.

Lemma dispatch_attempt_short_circuit w rv w2 :
  preprocess_request (add_event w (EvSignal "request_started" ArgNone)) = (Return rv, w2) →
  rv ≠ PyNone →
  dispatch_attempt w = (Return rv, w2).
Proof.
  intros Hpre Hrv. unfold dispatch_attempt, bind at 1. rewrite emit_run.
  unfold bind at 1. rewrite Hpre. by destruct rv.
Qed.
End FullDispatch.

(** X29: in [full_dispatch_request] an exception raised by a
    before-first-request hook is raised as it is: the error handlers are
    not consulted and nothing is finalised.  An [Exception] raised by a
    hook or the view goes to [handle_user_exception]; what that returns
    is finalised as a normal pass, and what that raises leaves the method
    without finalisation.  An exception that is not an [Exception]
    bypasses [handle_user_exception].  A value returned by a
    before-request hook is finalised without the view being dispatched. *)
Theorem full_dispatch_request_paths (w w1 : world) :
  (∀ ex, try_trigger_before_first_request_functions w = (Raise ex, w1) →
         full_dispatch_request w = (Raise ex, w1))
  ∧ (try_trigger_before_first_request_functions w = (Return tt, w1) →
     (∀ e w2, dispatch_attempt w1 = (Raise e, w2) →
              (isinstance e "Exception" = false →
               full_dispatch_request w = (Raise e, w2))
              ∧ (isinstance e "Exception" = true →
                 (∀ rv w3, handle_user_exception e w2 = (Return rv, w3) →
                           full_dispatch_request w = finalize_request rv false w3)
                 ∧ (∀ e' w3, handle_user_exception e w2 = (Raise e', w3) →
                             full_dispatch_request w = (Raise e', w3))))
     ∧ (∀ rv w2,
           preprocess_request (add_event w1 (EvSignal "request_started" ArgNone))
           = (Return rv, w2) →
           rv ≠ PyNone →
           full_dispatch_request w = finalize_request rv false w2)).
Proof.
  rewrite full_dispatch_request_run. split.
  - by intros ex ->.
  - intros ->. split.
    + intros e w2 ->. split.
      * by intros ->.
      * intros ->. split; [by intros rv w3 ->|by intros e' w3 ->].
    + intros rv w2 Hpre Hrv.
      by rewrite (dispatch_attempt_short_circuit w1 rv w2 Hpre Hrv).
Qed.

Lemma full_dispatch_request_paths_witness :
  full_dispatch_request (world0 app_first_raising (ctx0 None))
  = (Raise boom,
     add_events (world0 app_first_raising (ctx0 None))
                [EvLock true; EvCall "f1" ArgNone; EvCall "f2" ArgNone; EvLock false]).
Proof.
  apply (proj1 (full_dispatch_request_paths
                  (world0 app_first_raising (ctx0 None))
                  (add_events (world0 app_first_raising (ctx0 None))
                              [EvLock true; EvCall "f1" ArgNone; EvCall "f2" ArgNone;
                               EvLock false]))).
  reflexivity.
Defined.

(** X30: when the value normalises and the after-request processing
    returns, [finalize_request] returns the processed response and sends
    the request-finished signal with it as the last thing it does, on a
    normal pass and on an error-recovery pass alike; after a raise of the
    processing no signal is sent. *)
Theorem finalize_request_signal
    (w : world) (rv : pyval) (response : Response) (from_error_handler : bool) :
  make_response (endpoint (w_ctx w)) rv = Return response →
  (∀ r' w', process_response response w = (Return r', w') →
            finalize_request rv from_error_handler w
            = (Return r', add_event w' (EvSignal "request_finished" (ArgResponse r'))))
  ∧ (∀ ex w', process_response response w = (Raise ex, w') →
              ∀ r, ¬ In (EvSignal "request_finished" (ArgResponse r))
                        (w_trace w') →
                   ¬ In (EvSignal "request_finished" (ArgResponse r))
                        (w_trace (snd (finalize_request rv from_error_handler w)))).
Proof.
  intros Hmake. rewrite finalize_request_run, Hmake. split.
  - by intros r' w' ->.
  - intros ex w' -> r Hnot.
    destruct (isinstance ex "Exception" && from_error_handler); [|exact Hnot].
    cbn [snd add_event w_trace]. rewrite in_app_iff. intros [Hin|[[=]|[]]].
    by apply Hnot.
Qed.

Lemma finalize_request_signal_witness :
  finalize_request (PyStr "ok") false (world0 app_after (ctx0 None))
  = (Return (mkResponse "okh3h2h1" (StatusCode 200) [Werkzeug.default_content_type]),
     add_events (world0 app_after (ctx0 None))
       [EvCall "h3" (ArgResponse
                       (mkResponse "ok" (StatusCode 200) [Werkzeug.default_content_type]));
        EvCall "h2" (ArgResponse
                       (mkResponse "okh3" (StatusCode 200) [Werkzeug.default_content_type]));
        EvCall "h1" (ArgResponse
                       (mkResponse "okh3h2" (StatusCode 200) [Werkzeug.default_content_type]));
        EvSignal "request_finished"
                 (ArgResponse (mkResponse "okh3h2h1" (StatusCode 200)
                                          [Werkzeug.default_content_type]))]).
Proof.
  rewrite (proj1 (finalize_request_signal
                    (world0 app_after (ctx0 None)) (PyStr "ok")
                    (mkResponse "ok" (StatusCode 200) [Werkzeug.default_content_type])
                    false eq_refl)
                 (mkResponse "okh3h2h1" (StatusCode 200) [Werkzeug.default_content_type])
                 (add_events (world0 app_after (ctx0 None))
                    [EvCall "h3" (ArgResponse
                       (mkResponse "ok" (StatusCode 200) [Werkzeug.default_content_type]));
                     EvCall "h2" (ArgResponse
                       (mkResponse "okh3" (StatusCode 200) [Werkzeug.default_content_type]));
                     EvCall "h1" (ArgResponse
                       (mkResponse "okh3h2" (StatusCode 200)
                                   [Werkzeug.default_content_type]))])).
  - reflexivity.
  - vm_compute. reflexivity.
Defined.
